(** * Nobitex-Python: the OHLC and trade schemas

    A shallow embedding of [nobitex/schema/ohcl_schema.py],
    [nobitex/schema/trade_schema.py] and of the model classes that
    [tests/test_schema/test_ohcl.py] declares for itself, together with the
    fragment of the Python runtime ([str], [decimal.Decimal],
    [datetime.isoformat], attribute access, ordering) and of Pydantic v2
    (lax-mode validation of Python input) that these files rely on.

    Conventions.
    - Text is a [string] of ASCII characters; the digit and white-space
      classes are the ASCII ones.
    - Binary floating point values are not part of the value universe, nor
      are instances of the models themselves: an object with attributes
      stands for an instance of some other class.  The statements about
      [model_validate] are therefore made on dicts, lists and tuples.
    - The exponent of a [Decimal] stays within the limits of the
      interpreter (18 digits).
    - What depends on the interpreter or on the release of the library (the
      digit limit of [str] on an [int], the rendering of containers, the
      ordering of sequences and dates, Pydantic's string-to-integer syntax)
      is a parameter, see [Runtime]. *)

From Stdlib Require Import ZArith List String Ascii Bool Lia.
From Stdlib Require Import DecimalString DecimalPos DecimalN.
Import ListNotations.

Set Warnings "-register-all".

Local Open Scope string_scope.
Local Open Scope Z_scope.

(* ================================================================== *)
(** ** Text helpers *)

Module text.

Definition chars := list ascii.

Definition code (c : ascii) : N := N_of_ascii c.

(** [c.isdigit()] on the ASCII range. *)
Definition is_digit (c : ascii) : bool :=
  ((48 <=? code c) && (code c <=? 57))%N.

(** [c.isspace()] on the ASCII range: TAB, LF, VT, FF, CR, FS, GS, RS, US
    and the space. *)
Definition is_space (c : ascii) : bool :=
  (((9 <=? code c) && (code c <=? 13)) || ((28 <=? code c) && (code c <=? 32)))%N.

(** ASCII lower-casing, for the case-insensitive parts of a literal. *)
Definition lower (c : ascii) : ascii :=
  if ((65 <=? code c) && (code c <=? 90))%N then ascii_of_N (code c + 32) else c.

Fixpoint drop_while (p : ascii -> bool) (l : chars) : chars :=
  match l with
  | [] => []
  | c :: r => if p c then drop_while p r else l
  end.

(** The longest prefix satisfying [p], and the rest. *)
Fixpoint span (p : ascii -> bool) (l : chars) : chars * chars :=
  match l with
  | [] => ([], [])
  | c :: r => if p c then let (a, b) := span p r in (c :: a, b) else ([], l)
  end.

(** An optional leading sign: whether it is a minus, and the rest. *)
Definition split_sign (l : chars) : bool * chars :=
  match l with
  | "-"%char :: r => (true, r)
  | "+"%char :: r => (false, r)
  | _ => (false, l)
  end.

(** [s.strip()] *)
Definition strip (l : chars) : chars :=
  rev (drop_while is_space (rev (drop_while is_space l))).

(** [s.replace("_", "")] *)
Definition remove_underscores (l : chars) : chars :=
  filter (fun c => negb (Ascii.eqb c "_")) l.

Definition digit_value (c : ascii) : N := (code c - 48)%N.

(** [int(ds)] for a run of ASCII digits. *)
Definition digits_to_N (ds : chars) : N :=
  fold_left (fun acc c => (acc * 10 + digit_value c)%N) ds 0%N.

(** [str(int(ds))] for a run of ASCII digits: leading zeros go, a lone
    ["0"] stays for zero. *)
Definition canonical_digits (ds : chars) : chars :=
  match drop_while (Ascii.eqb "0") ds with
  | [] => ["0"%char]
  | r => r
  end.

(** [str(n)] for a natural number. *)
Definition N_to_string (n : N) : string := NilZero.string_of_uint (N.to_uint n).

(** [str(z)] for an integer. *)
Definition Z_to_string (z : Z) : string :=
  if z <? 0 then "-" ++ N_to_string (Z.abs_N z) else N_to_string (Z.abs_N z).

(** ["%+d" % z] *)
Definition format_plus_d (z : Z) : string :=
  (if z <? 0 then "-" else "+") ++ N_to_string (Z.abs_N z).

(** ["0" * n] *)
Definition zeros (n : nat) : chars := repeat "0"%char n.

(** ["%0<w>d" % n] for a natural number. *)
Definition zero_pad (w : nat) (n : N) : string :=
  let s := list_ascii_of_string (N_to_string n) in
  string_of_list_ascii (zeros (w - List.length s) ++ s)%list.

Definition lowered (l : chars) : string := string_of_list_ascii (map lower l).

End text.

(* ================================================================== *)
(** ** [decimal.Decimal] *)

Module decimal.
Import text.

(** A [Decimal] keeps its sign, its coefficient as a digit string without
    leading zeros ([_int]) and its exponent ([_exp]); the special values
    are the infinities and the quiet or signalling NaNs with their
    diagnostic digits. *)
Inductive Decimal : Type :=
| Finite (sign : bool) (coeff : string) (exp : Z)
| Infinity (sign : bool)
| NaN (sign : bool) (signaling : bool) (diag : string).

Definition is_finite (d : Decimal) : bool :=
  match d with Finite _ _ _ => true | _ => false end.

(** The exponent part of a literal, after the [E]: an optional sign and at
    least one digit, up to the end of the text. *)
Definition parse_exponent (l : chars) : option Z :=
  let '(neg, r) := split_sign l in
  match span is_digit r with
  | ([], _) => None
  | (ds, []) =>
      Some (if neg : bool then - Z.of_N (digits_to_N ds) else Z.of_N (digits_to_N ds))
  | _ => None
  end.

(** The numeric alternative of the literal grammar:
    [(?=\d|\.\d)(\d* )(\.(\d* ))?(E[-+]?\d+)?\Z]. *)
Definition parse_finite (sign : bool) (l : chars) : option Decimal :=
  let '(intpart, r1) := span is_digit l in
  let '(fracpart, r2) :=
    match r1 with
    | "."%char :: r => span is_digit r
    | _ => ([], r1)
    end in
  let lookahead :=
    match l with
    | c :: r => is_digit c || (Ascii.eqb c "." && match r with d :: _ => is_digit d | [] => false end)
    | [] => false
    end in
  if lookahead then
    match
      match r2 with
      | [] => Some 0
      | e :: r3 => if Ascii.eqb (lower e) "e" then parse_exponent r3 else None
      end
    with
    | Some exp =>
        Some (Finite sign (string_of_list_ascii (canonical_digits (intpart ++ fracpart)%list))
                (exp - Z.of_nat (List.length fracpart)))
    | None => None
    end
  else None.

(** The special alternatives: [Inf(inity)?] and [s?NaN\d*]. *)
Definition parse_special (sign : bool) (l : chars) : option Decimal :=
  let low := lowered l in
  if (low =? "inf")%string || (low =? "infinity")%string then Some (Infinity sign)
  else
    let '(signaling, r) :=
      match l with
      | c :: r' => if Ascii.eqb (lower c) "s" then (true, r') else (false, l)
      | [] => (false, l)
      end in
    match r with
    | n1 :: a :: n2 :: ds =>
        if (lowered [n1; a; n2] =? "nan")%string && forallb is_digit ds then
          (* str(int(diag or '0')).lstrip('0') *)
          Some (NaN sign signaling (string_of_list_ascii (drop_while (Ascii.eqb "0") ds)))
        else None
    | _ => None
    end.

(** [Decimal(s)] for a string: [None] stands for [InvalidOperation]
    (conversion syntax).  The conversion is exact, whatever the context
    precision. *)
Definition of_string (s : string) : option Decimal :=
  let '(sign, r) := split_sign (remove_underscores (strip (list_ascii_of_string s))) in
  match parse_finite sign r with
  | Some d => Some d
  | None => parse_special sign r
  end.

(** [Decimal(z)] for an integer. *)
Definition of_int (z : Z) : Decimal :=
  Finite (z <? 0) (N_to_string (Z.abs_N z)) 0.

(** [str(d)]: the scientific string of the General Decimal Arithmetic
    specification ([Decimal.__str__]). *)
Definition to_string (d : Decimal) : string :=
  match d with
  | Infinity s => (if s then "-" else "") ++ "Infinity"
  | NaN s sig diag => (if s then "-" else "") ++ (if sig then "sNaN" else "NaN") ++ diag
  | Finite s coeff exp =>
      let ds := list_ascii_of_string coeff in
      let n := Z.of_nat (List.length ds) in
      let leftdigits := exp + n in
      let dotplace := if (exp <=? 0) && (-6 <? leftdigits) then leftdigits else 1 in
      let '(intpart, fracpart) :=
        if dotplace <=? 0 then
          (["0"%char], "."%char :: (zeros (Z.to_nat (- dotplace)) ++ ds)%list)
        else if n <=? dotplace then
          ((ds ++ zeros (Z.to_nat (dotplace - n)))%list, [])
        else
          (firstn (Z.to_nat dotplace) ds, "."%char :: skipn (Z.to_nat dotplace) ds) in
      let e :=
        if leftdigits =? dotplace then ""
        else "E" ++ format_plus_d (leftdigits - dotplace) in
      (if s then "-" else "") ++ string_of_list_ascii (intpart ++ fracpart)%list ++ e
  end.

(** The integer [(-1)^sign * coeff]. *)
Definition signed_coeff (sign : bool) (coeff : string) : Z :=
  let n := Z.of_N (digits_to_N (list_ascii_of_string coeff)) in
  if sign then - n else n.

(** Both finite operands brought to the smaller exponent, as integers. *)
Definition aligned (c1 : Z) (e1 : Z) (c2 : Z) (e2 : Z) : Z * Z :=
  let m := Z.min e1 e2 in
  (c1 * 10 ^ (e1 - m), c2 * 10 ^ (e2 - m)).

(** Numerical comparison; [None] when a NaN is involved (an ordering
    comparison then signals [InvalidOperation]). *)
Definition compare (a b : Decimal) : option comparison :=
  match a, b with
  | NaN _ _ _, _ | _, NaN _ _ _ => None
  | Infinity s1, Infinity s2 =>
      Some (if Bool.eqb s1 s2 then Eq else if s1 then Lt else Gt)
  | Infinity s1, Finite _ _ _ => Some (if s1 then Lt else Gt)
  | Finite _ _ _, Infinity s2 => Some (if s2 then Gt else Lt)
  | Finite s1 c1 e1, Finite s2 c2 e2 =>
      let '(x, y) := aligned (signed_coeff s1 c1) e1 (signed_coeff s2 c2) e2 in
      Some (x ?= y)
  end.

(** [d.as_integer_ratio()] restricted to what its caller asks: the
    numerator when the denominator is 1. *)
Definition as_integer (d : Decimal) : option Z :=
  match d with
  | Finite s c e =>
      let v := signed_coeff s c in
      if 0 <=? e then Some (v * 10 ^ e)
      else if v mod 10 ^ (- e) =? 0 then Some (v / 10 ^ (- e)) else None
  | _ => None
  end.

End decimal.

(* ================================================================== *)
(** ** [datetime.datetime] *)

Module pydatetime.
Import text.

(** A date-time value; [utcoffset] is [None] for a naive value and the
    offset from UTC, in microseconds, for an aware one. *)
Record datetime : Type := mkDatetime {
  year : N; month : N; day : N;
  hour : N; minute : N; second : N; microsecond : N;
  utcoffset : option Z
}.

(** [_format_offset(off)] *)
Definition format_offset (off : option Z) : string :=
  match off with
  | None => ""
  | Some o =>
      let a := Z.abs_N o in
      let hh := (a / 3600000000)%N in
      let mm := ((a mod 3600000000) / 60000000)%N in
      let ss := (a mod 60000000)%N in
      (if o <? 0 then "-" else "+") ++ zero_pad 2 hh ++ ":" ++ zero_pad 2 mm ++
      (if (ss =? 0)%N then ""
       else ":" ++ zero_pad 2 (ss / 1000000) ++
            (if (ss mod 1000000 =? 0)%N then ""
             else "." ++ zero_pad 6 (ss mod 1000000)))
  end.

(** [_format_time(hh, mm, ss, us, 'auto')] *)
Definition format_time (d : datetime) : string :=
  zero_pad 2 (hour d) ++ ":" ++ zero_pad 2 (minute d) ++ ":" ++ zero_pad 2 (second d) ++
  (if (microsecond d =? 0)%N then "" else "." ++ zero_pad 6 (microsecond d)).

(** [d.isoformat(sep)] *)
Definition isoformat_sep (sep : string) (d : datetime) : string :=
  zero_pad 4 (year d) ++ "-" ++ zero_pad 2 (month d) ++ "-" ++ zero_pad 2 (day d) ++
  sep ++ format_time d ++ format_offset (utcoffset d).

(** [d.isoformat()] *)
Definition isoformat (d : datetime) : string := isoformat_sep "T" d.

End pydatetime.

(* ================================================================== *)
(** ** Python values and the built-ins the schemas use *)

Module py.
Import text.

(** The values a caller can hand to a validator: what [json.loads] yields
    (without floats), [Decimal] and [datetime] values, tuples, and plain
    objects carrying instance attributes (of a class that is none of the
    models). *)
Inductive PyVal : Type :=
| PyNone
| PyBool (b : bool)
| PyInt (z : Z)
| PyStr (s : string)
| PyDecimal (d : decimal.Decimal)
| PyDatetime (d : pydatetime.datetime)
| PyList (items : list PyVal)
| PyTuple (items : list PyVal)
| PyDict (entries : list (string * PyVal))
| PyObj (cls : string) (attrs : list (string * PyVal)).

Inductive PyExc : Type :=
| AttributeError (type_name attr : string)
| TypeError (msg : string)
| ValueError (msg : string)
| InvalidOperation.

(** A computation that returns or raises. *)
Definition exc (A : Type) : Type := (PyExc + A)%type.
Definition ret {A} (a : A) : exc A := inr a.
Definition raise {A} (e : PyExc) : exc A := inl e.
Definition bind {A B} (m : exc A) (k : A -> exc B) : exc B :=
  match m with inl e => inl e | inr a => k a end.

Notation "x <- m ;; k" := (bind m (fun x => k))
  (at level 61, m at next level, right associativity).

(** What the interpreter and the library do outside the modelled fragment. *)
Class Runtime : Type := {
  (** Pydantic's lax conversion of a string to an integer; the accepted
      syntax (underscores, a trailing [.0], ...) depends on the release. *)
  str_as_int : string -> option Z;
  (** [sys.get_int_max_str_digits()]: the longest decimal text [str]
      gives for an [int], 4300 digits unless the interpreter is configured
      otherwise; 0 stands for no limit. *)
  int_max_str_digits : N;
  (** [str(v)] for lists, tuples, dicts and plain objects; [None] when the
      conversion stops on an [int] inside that is beyond the digit limit. *)
  object_str : PyVal -> option string;
  (** [a < b] for two lists, two tuples or two date-times. *)
  object_lt : PyVal -> PyVal -> exc bool
}.

(** [d.get(k)] on the entries of a dict (keys are unique in a dict). *)
Fixpoint lookup (k : string) (d : list (string * PyVal)) : option PyVal :=
  match d with
  | [] => None
  | (k', v) :: r => if (k =? k')%string then Some v else lookup k r
  end.

Definition type_name (v : PyVal) : string :=
  match v with
  | PyNone => "NoneType"
  | PyBool _ => "bool"
  | PyInt _ => "int"
  | PyStr _ => "str"
  | PyDecimal _ => "decimal.Decimal"
  | PyDatetime _ => "datetime.datetime"
  | PyList _ => "list"
  | PyTuple _ => "tuple"
  | PyDict _ => "dict"
  | PyObj cls _ => cls
  end.

(** [v.name] for the attribute names this program reads ([high], [open],
    [close], [low]): the built-in types have none of them, a plain object
    has what its instance dictionary holds. *)
Definition getattr (v : PyVal) (name : string) : exc PyVal :=
  match v with
  | PyObj cls attrs =>
      match lookup name attrs with
      | Some x => ret x
      | None => raise (AttributeError cls name)
      end
  | _ => raise (AttributeError (type_name v) name)
  end.

Section Builtins.
Context `{Runtime}.

(** The [ValueError] of [str] on an [int] with more digits than the
    limit. *)
Definition int_str_limit_message : string :=
  "Exceeds the limit (" ++ N_to_string int_max_str_digits ++
  " digits) for integer string conversion; use sys.set_int_max_str_digits() to increase the limit".

(** Whether [z] has more decimal digits than the limit allows. *)
Definition exceeds_int_str_limit (z : Z) : bool :=
  (0 <? int_max_str_digits)%N && (10 ^ Z.of_N int_max_str_digits <=? Z.abs z).

(** [str(v)] *)
Definition py_str (v : PyVal) : exc string :=
  match v with
  | PyNone => ret "None"
  | PyBool b => ret (if b then "True" else "False")
  | PyInt z =>
      if exceeds_int_str_limit z then raise (ValueError int_str_limit_message)
      else ret (Z_to_string z)
  | PyStr s => ret s
  | PyDecimal d => ret (decimal.to_string d)
  | PyDatetime d => ret (pydatetime.isoformat_sep " " d)
  | PyList _ | PyTuple _ | PyDict _ | PyObj _ _ =>
      match object_str v with
      | Some s => ret s
      | None => raise (ValueError int_str_limit_message)
      end
  end.

(** The numeric tower the ordering works on: [bool] and [int] as
    integers, [Decimal] as itself. *)
Inductive number : Type :=
| NumInt (z : Z)
| NumDec (d : decimal.Decimal).

Definition as_number (v : PyVal) : option number :=
  match v with
  | PyBool b => Some (NumInt (if b then 1 else 0))
  | PyInt z => Some (NumInt z)
  | PyDecimal d => Some (NumDec d)
  | _ => None
  end.

Definition number_compare (a b : number) : option comparison :=
  match a, b with
  | NumInt x, NumInt y => Some (x ?= y)
  | NumInt x, NumDec d => decimal.compare (decimal.of_int x) d
  | NumDec d, NumInt y => decimal.compare d (decimal.of_int y)
  | NumDec d1, NumDec d2 => decimal.compare d1 d2
  end.

Definition unorderable (op : string) (a b : PyVal) : PyExc :=
  TypeError ("'" ++ op ++ "' not supported between instances of '" ++
             type_name a ++ "' and '" ++ type_name b ++ "'").

(** [a < b] *)
Definition py_lt (a b : PyVal) : exc bool :=
  match as_number a, as_number b with
  | Some x, Some y =>
      match number_compare x y with
      | Some c => ret (match c with Lt => true | _ => false end)
      | None => raise InvalidOperation
      end
  | _, _ =>
      match a, b with
      | PyStr s, PyStr t => ret (match String.compare s t with Lt => true | _ => false end)
      | PyList _, PyList _ | PyTuple _, PyTuple _ | PyDatetime _, PyDatetime _ => object_lt a b
      | _, _ => raise (unorderable "<" a b)
      end
  end.

(** [a > b] *)
Definition py_gt (a b : PyVal) : exc bool :=
  match as_number a, as_number b with
  | Some x, Some y =>
      match number_compare x y with
      | Some c => ret (match c with Gt => true | _ => false end)
      | None => raise InvalidOperation
      end
  | _, _ =>
      match a, b with
      | PyStr s, PyStr t => ret (match String.compare s t with Gt => true | _ => false end)
      | PyList _, PyList _ | PyTuple _, PyTuple _ | PyDatetime _, PyDatetime _ => object_lt b a
      | _, _ => raise (unorderable ">" a b)
      end
  end.

(** [max(a, b)]: the first argument unless the second is greater. *)
Definition py_max (a b : PyVal) : exc PyVal :=
  g <- py_gt b a ;; ret (if g : bool then b else a).

(** [min(a, b)]: the first argument unless the second is smaller. *)
Definition py_min (a b : PyVal) : exc PyVal :=
  l <- py_lt b a ;; ret (if l : bool then b else a).

End Builtins.

End py.

(* ================================================================== *)
(** ** Pydantic v2: lax validation of Python input *)

Module pydantic.
Import text py.

Inductive LocItem : Type :=
| LocKey (k : string)
| LocIndex (i : nat).

Inductive ErrorType : Type :=
| missing
| int_type
| int_parsing
| int_from_float
| finite_number
| decimal_type
| decimal_parsing
| string_type
| literal_error (expected : list string)
| model_type (class_name : string)
| list_type
| dict_type
| value_error (msg : string).

(** One line of a [ValidationError]: the kind of error, where it occurred
    and the offending input. *)
Record ErrorDetails : Type := mkError {
  err_type : ErrorType;
  loc : list LocItem;
  input : PyVal
}.

(** A validation call returns a value, raises [ValidationError] with its
    error lines, or lets another exception through. *)
Inductive outcome (A : Type) : Type :=
| Valid (a : A)
| Invalid (errors : list ErrorDetails)
| Raised (e : PyExc).
Arguments Valid {A} a.
Arguments Invalid {A} errors.
Arguments Raised {A} e.

(** ["'a', 'b' or 'c'"]: how the expected tokens of a literal are listed. *)
Fixpoint expected_repr (l : list string) : string :=
  match l with
  | [] => ""
  | [a] => "'" ++ a ++ "'"
  | [a; b] => "'" ++ a ++ "' or '" ++ b ++ "'"
  | a :: r => "'" ++ a ++ "', " ++ expected_repr r
  end.

(** The message of an error line. *)
Definition message (t : ErrorType) : string :=
  match t with
  | missing => "Field required"
  | int_type => "Input should be a valid integer"
  | int_parsing => "Input should be a valid integer, unable to parse string as an integer"
  | int_from_float => "Input should be a valid integer, got a number with a fractional part"
  | finite_number => "Input should be a finite number"
  | decimal_type => "Decimal input should be an integer, float, string or Decimal object"
  | decimal_parsing => "Input should be a valid decimal"
  | string_type => "Input should be a valid string"
  | literal_error expected => "Input should be " ++ expected_repr expected
  | model_type cls => "Input should be a valid dictionary or instance of " ++ cls
  | list_type => "Input should be a valid list"
  | dict_type => "Input should be a valid dictionary"
  | value_error msg => "Value error, " ++ msg
  end.

Definition fail {A} (t : ErrorType) (v : PyVal) : outcome A :=
  Invalid [mkError t [] v].

Definition prefix_loc (i : LocItem) (e : ErrorDetails) : ErrorDetails :=
  mkError (err_type e) (i :: loc e) (input e).

(** The errors of a component, located under [i]. *)
Definition at_loc {A} (i : LocItem) (r : outcome A) : outcome A :=
  match r with
  | Invalid es => Invalid (map (prefix_loc i) es)
  | _ => r
  end.

(** Components are validated in order; error lines accumulate, an
    exception that is not a validation error escapes at once. *)
Definition ap {A B} (f : outcome (A -> B)) (x : outcome A) : outcome B :=
  match f, x with
  | Raised e, _ => Raised e
  | _, Raised e => Raised e
  | Valid g, Valid a => Valid (g a)
  | Valid _, Invalid es => Invalid es
  | Invalid es, Valid _ => Invalid es
  | Invalid es1, Invalid es2 => Invalid (es1 ++ es2)%list
  end.

Infix "<*>" := ap (at level 55, left associativity).

Section Validators.
Context `{Runtime}.

(** An [int] field. *)
Definition int_validator (v : PyVal) : outcome Z :=
  match v with
  | PyInt z => Valid z
  | PyBool b => Valid (if b then 1 else 0)
  | PyStr s =>
      match str_as_int s with
      | Some z => Valid z
      | None => fail int_parsing v
      end
  | PyDecimal d =>
      if decimal.is_finite d then
        match decimal.as_integer d with
        | Some z => Valid z
        | None => fail int_from_float v
        end
      else fail finite_number v
  | _ => fail int_type v
  end.

(** A [Decimal] field: an instance is kept, a string or an integer goes
    through the [Decimal] constructor; the result has to be finite. *)
Definition decimal_validator (v : PyVal) : outcome decimal.Decimal :=
  let finite (d : decimal.Decimal) : outcome decimal.Decimal :=
    if decimal.is_finite d then Valid d else fail finite_number v in
  match v with
  | PyDecimal d => finite d
  | PyStr s =>
      match decimal.of_string s with
      | Some d => finite d
      | None => fail decimal_parsing v
      end
  | PyInt z => finite (decimal.of_int z)
  | _ => fail decimal_type v
  end.

(** A [str] field. *)
Definition str_validator (v : PyVal) : outcome string :=
  match v with
  | PyStr s => Valid s
  | _ => fail string_type v
  end.

(** A [Literal[...]] field over string tokens. *)
Definition literal_validator (expected : list string) (v : PyVal) : outcome string :=
  match v with
  | PyStr s => if existsb (String.eqb s) expected then Valid s else fail (literal_error expected) v
  | _ => fail (literal_error expected) v
  end.

(** [Any] *)
Definition any_validator (v : PyVal) : outcome PyVal := Valid v.

(** A function run before the inner validator, on the raw input
    ([mode='before']): a [ValueError] becomes an error line, any other
    exception escapes. *)
Definition before_validator {A} (f : PyVal -> exc PyVal) (inner : PyVal -> outcome A)
    (v : PyVal) : outcome A :=
  match f v with
  | inr v' => inner v'
  | inl (ValueError msg) => fail (value_error msg) v
  | inl e => Raised e
  end.

(** One field of a model: looked up by name in the input dict. *)
Definition field {A} (name : string) (validator : PyVal -> outcome A)
    (d : list (string * PyVal)) : outcome A :=
  match lookup name d with
  | None => Invalid [mkError missing [LocKey name] (PyDict d)]
  | Some v => at_loc (LocKey name) (validator v)
  end.

(** The fields of model [cls]: the input has to be a dict; keys that name
    no field are ignored ([extra='ignore']).  An instance of [cls] itself
    would be returned as it is, before any hook runs; instances of the
    models are not among the values, so what is not a dict is rejected. *)
Definition model_fields_validator {A} (cls : string)
    (fields : list (string * PyVal) -> outcome A) (v : PyVal) : outcome A :=
  match v with
  | PyDict d => fields d
  | _ => fail (model_type cls) v
  end.

Fixpoint validate_items {A} (item : PyVal -> outcome A) (i : nat) (l : list PyVal)
    : outcome (list A) :=
  match l with
  | [] => Valid []
  | x :: r => Valid cons <*> at_loc (LocIndex i) (item x) <*> validate_items item (S i) r
  end.

(** [List[T]]: a list or, in lax mode, a tuple. *)
Definition list_validator {A} (item : PyVal -> outcome A) (v : PyVal) : outcome (list A) :=
  match v with
  | PyList l | PyTuple l => validate_items item 0 l
  | _ => fail list_type v
  end.

Fixpoint validate_entries {A} (value : PyVal -> outcome A) (d : list (string * PyVal))
    : outcome (list (string * A)) :=
  match d with
  | [] => Valid []
  | (k, x) :: r =>
      Valid (fun y t => (k, y) :: t) <*> at_loc (LocKey k) (value x) <*> validate_entries value r
  end.

(** [Dict[str, T]] *)
Definition dict_validator {A} (value : PyVal -> outcome A) (v : PyVal)
    : outcome (list (string * A)) :=
  match v with
  | PyDict d => validate_entries value d
  | _ => fail dict_type v
  end.

End Validators.

End pydantic.

(* ================================================================== *)
(** ** [nobitex/schema/ohcl_schema.py] *)

Module ohcl_schema.
Import text py pydantic.

(** [Decimal("0")] *)
Definition Decimal_0 : decimal.Decimal := decimal.Finite false "0" 0.

Record OHCLEntry : Type := mkOHCLEntry {
  timestamp : Z;
  open : decimal.Decimal;
  high : decimal.Decimal;
  low : decimal.Decimal;
  close : decimal.Decimal;
  volume : decimal.Decimal
}.

Record OHCL : Type := mkOHCL {
  values : list OHCLEntry
}.

(** [values[i]], read under a guard on [len(values)]. *)
Definition item (values : list PyVal) (i : nat) : PyVal := nth i values PyNone.

(** [OHCLEntry.parse_list]: a plain class method; no decorator registers
    it with the model. *)
Definition parse_list (values : PyVal) : PyVal :=
  match values with
  | PyList l | PyTuple l =>
      if (6 <=? List.length l)%nat then
        PyDict [("timestamp", item l 0); ("open", item l 1); ("high", item l 2);
                ("low", item l 3); ("close", item l 4); ("volume", item l 5)]
      else if (List.length l =? 5)%nat then
        PyDict [("timestamp", item l 0); ("open", item l 1); ("high", item l 2);
                ("low", item l 3); ("close", item l 4); ("volume", PyDecimal Decimal_0)]
      else values
  | _ => values
  end.

Section Schema.
Context `{Runtime}.

(** [OHCLEntry.validate_high_low]: declared with
    [@model_validator(mode="before")], so the library calls it with the
    raw input in the place of [self]. *)
Definition validate_high_low (self : PyVal) : exc PyVal :=
  h <- getattr self "high" ;;
  o <- getattr self "open" ;;
  c <- getattr self "close" ;;
  m <- py_max o c ;;
  below <- py_lt h m ;;
  if below : bool then raise (ValueError "High must be >= max(open, close)")
  else
    l <- getattr self "low" ;;
    o' <- getattr self "open" ;;
    c' <- getattr self "close" ;;
    m' <- py_min o' c' ;;
    above <- py_gt l m' ;;
    if above : bool then raise (ValueError "Low must be <= min(open, close)")
    else ret self.

Definition OHCLEntry_fields (d : list (string * PyVal)) : outcome OHCLEntry :=
  Valid mkOHCLEntry
    <*> field "timestamp" int_validator d
    <*> field "open" decimal_validator d
    <*> field "high" decimal_validator d
    <*> field "low" decimal_validator d
    <*> field "close" decimal_validator d
    <*> field "volume" decimal_validator d.

(** [OHCLEntry.model_validate] *)
Definition OHCLEntry_validate : PyVal -> outcome OHCLEntry :=
  before_validator validate_high_low (model_fields_validator "OHCLEntry" OHCLEntry_fields).

(** [OHCL.model_validate] *)
Definition OHCL_validate : PyVal -> outcome OHCL :=
  model_fields_validator "OHCL"
    (fun d => Valid mkOHCL <*> field "values" (list_validator OHCLEntry_validate) d).

(** [all_ohlc_T = TypeAdapter(Any)], [all_ohlc_T.validate_python] *)
Definition all_ohlc_T : PyVal -> outcome PyVal := any_validator.

End Schema.

End ohcl_schema.

(* ================================================================== *)
(** ** The models of [tests/test_schema/test_ohcl.py] *)

Module test_ohcl.
Import text py pydantic.

Record OHLCEntry : Type := mkOHLCEntry {
  timestamp : Z;
  open : decimal.Decimal;
  high : decimal.Decimal;
  low : decimal.Decimal;
  close : decimal.Decimal;
  volume : decimal.Decimal
}.

Record OHLC : Type := mkOHLC {
  data : list OHLCEntry
}.

Definition item (data : list PyVal) (i : nat) : PyVal := nth i data PyNone.

(** [OHLCEntry.parse_list], registered with
    [@model_validator(mode="before")]. *)
Definition parse_list (data : PyVal) : PyVal :=
  match data with
  | PyList l | PyTuple l =>
      if (6 <=? List.length l)%nat then
        PyDict [("timestamp", item l 0); ("open", item l 1); ("high", item l 2);
                ("low", item l 3); ("close", item l 4); ("volume", item l 5)]
      else if (List.length l =? 5)%nat then
        PyDict [("timestamp", item l 0); ("open", item l 1); ("high", item l 2);
                ("low", item l 3); ("close", item l 4); ("volume", PyStr "0")]
      else data
  | _ => data
  end.

Section Schema.
Context `{Runtime}.

Definition OHLCEntry_fields (d : list (string * PyVal)) : outcome OHLCEntry :=
  Valid mkOHLCEntry
    <*> field "timestamp" int_validator d
    <*> field "open" decimal_validator d
    <*> field "high" decimal_validator d
    <*> field "low" decimal_validator d
    <*> field "close" decimal_validator d
    <*> field "volume" decimal_validator d.

(** [OHLCEntry.model_validate] *)
Definition OHLCEntry_validate : PyVal -> outcome OHLCEntry :=
  before_validator (fun v => ret (parse_list v))
    (model_fields_validator "OHLCEntry" OHLCEntry_fields).

(** [OHLC.model_validate] *)
Definition OHLC_validate : PyVal -> outcome OHLC :=
  model_fields_validator "OHLC"
    (fun d => Valid mkOHLC <*> field "data" (list_validator OHLCEntry_validate) d).

(** [all_ohlc_T = TypeAdapter(dict[str, OHLC])] *)
Definition all_ohlc_T : PyVal -> outcome (list (string * OHLC)) :=
  dict_validator OHLC_validate.

End Schema.

End test_ohcl.

(* ================================================================== *)
(** ** [nobitex/schema/trade_schema.py] *)

Module trade_schema.
Import text py pydantic.

Record TradeEntry : Type := mkTradeEntry {
  market : string;
  price : decimal.Decimal;
  amount : decimal.Decimal;
  total : decimal.Decimal;
  type : string;
  timestamp : string
}.

Record NubitexTrades : Type := mkNubitexTrades {
  trades : list TradeEntry;
  status : string
}.

Section Schema.
Context `{Runtime}.

(** [TradeEntry.validate_timestamp], a [field_validator] of mode
    [before] on [timestamp]. *)
Definition validate_timestamp (v : PyVal) : exc string :=
  match v with
  | PyDatetime d => ret (pydatetime.isoformat d)
  | _ => py_str v
  end.

(** The [timestamp] field: the hook, then the [str] validator on what it
    returned. *)
Definition timestamp_validator : PyVal -> outcome string :=
  before_validator (fun v => s <- validate_timestamp v ;; ret (PyStr s)) str_validator.

Definition TradeEntry_fields (d : list (string * PyVal)) : outcome TradeEntry :=
  Valid mkTradeEntry
    <*> field "market" str_validator d
    <*> field "price" decimal_validator d
    <*> field "amount" decimal_validator d
    <*> field "total" decimal_validator d
    <*> field "type" (literal_validator ["buy"; "sell"]) d
    <*> field "timestamp" timestamp_validator d.

(** [TradeEntry.model_validate] *)
Definition TradeEntry_validate : PyVal -> outcome TradeEntry :=
  model_fields_validator "TradeEntry" TradeEntry_fields.

(** [NubitexTrades.model_validate] *)
Definition NubitexTrades_validate : PyVal -> outcome NubitexTrades :=
  model_fields_validator "NubitexTrades"
    (fun d => Valid mkNubitexTrades
                <*> field "trades" (list_validator TradeEntry_validate) d
                <*> field "status" str_validator d).

(** [all_trades_T = TypeAdapter(Dict[str, NubitexTrades])] *)
Definition all_trades_T : PyVal -> outcome (list (string * NubitexTrades)) :=
  dict_validator NubitexTrades_validate.

End Schema.

End trade_schema.

(* ================================================================== *)
(** ** A runtime to run the schemas on concrete inputs *)

Module sample.
Import text py.

(** Strings every release of the library reads as an integer: optional
    white space around an optional sign and ASCII digits. *)
Definition ascii_int (s : string) : option Z :=
  let '(neg, r) := split_sign (strip (list_ascii_of_string s)) in
  match r with
  | [] => None
  | _ => if forallb is_digit r
         then Some (if neg : bool then - Z.of_N (digits_to_N r) else Z.of_N (digits_to_N r))
         else None
  end.

Definition runtime : Runtime := {|
  str_as_int := ascii_int;
  int_max_str_digits := 4300;
  object_str := fun v => Some ("<" ++ type_name v ++ ">");
  object_lt := fun a b => raise (TypeError "ordering outside the sample runtime")
|}.

End sample.

(* ================================================================== *)
(** ** Vocabulary of the statements *)

Module props.
Import text py pydantic.

(** The keyed record with the six candle fields. *)
Definition candle_record (t o h l c v : PyVal) : PyVal :=
  PyDict [("timestamp", t); ("open", o); ("high", h);
          ("low", l); ("close", c); ("volume", v)].

(** The error lines of an outcome. *)
Definition errors_of {A} (r : outcome A) : list ErrorDetails :=
  match r with
  | Invalid es => es
  | _ => []
  end.

Definition is_valid {A} (r : outcome A) : bool :=
  match r with
  | Valid _ => true
  | _ => false
  end.

(** A validator that raises nothing but [ValidationError]. *)
Definition never_raises {A} (f : PyVal -> outcome A) : Prop :=
  forall v e, f v <> Raised e.

(** The entries of a dict whose key names a field in [known]. *)
Definition restrict (known : list string) (d : list (string * PyVal))
    : list (string * PyVal) :=
  filter (fun kv => existsb (String.eqb (fst kv)) known) d.

Definition candle_fields : list string :=
  ["timestamp"; "open"; "high"; "low"; "close"; "volume"].

Definition trade_fields : list string :=
  ["market"; "price"; "amount"; "total"; "type"; "timestamp"].

(** A plain decimal literal: an optional minus, the digits of the integer
    part and, when there are any, a point and the digits of the
    fraction. *)
Definition plain_literal (neg : bool) (ip fp : chars) : string :=
  string_of_list_ascii
    ((if neg then ["-"%char] else []) ++ ip ++
     match fp with [] => [] | _ => "."%char :: fp end)%list.

(** The characters of a plain literal. *)
Definition literal_char (c : ascii) : bool :=
  is_digit c || Ascii.eqb c "-" || Ascii.eqb c ".".

(** A property of a character, checked on each of the 256. *)
Ltac by_cases_on_char c :=
  destruct c as [[] [] [] [] [] [] [] []]; try discriminate; try reflexivity.

(** The integer part is not empty and has no leading zero, unless it is
    the single digit zero. *)
Definition no_leading_zero (ip : chars) : bool :=
  match ip with
  | [] => false
  | [c] => true
  | c :: _ => negb (Ascii.eqb c "0")
  end.

(** The coefficient a literal with integer part [ip] and fraction [fp]
    is stored with. *)
Definition coefficient (ip fp : chars) : chars := canonical_digits (ip ++ fp)%list.

(** The stored value is printed without an exponent: its adjusted
    exponent is at least -6. *)
Definition printed_plain (ip fp : chars) : bool :=
  -6 <? Z.of_nat (List.length (coefficient ip fp)) - Z.of_nat (List.length fp).

(** The error lines located under the key [k]. *)
Definition errors_at (k : string) (es : list ErrorDetails) : list ErrorDetails :=
  filter (fun e => match loc e with
                   | LocKey k' :: _ => (k =? k')%string
                   | _ => false
                   end) es.

(** A decimal string supplied as the price of a trade is printed back,
    from a valid entry, as the same text. *)
Definition price_reserializes_verbatim `{Runtime} (s : string) : Prop :=
  forall d e,
    lookup "price" d = Some (PyStr s) ->
    trade_schema.TradeEntry_validate (PyDict d) = Valid e ->
    decimal.to_string (trade_schema.price e) = s.

(** A trade quoted at a price of one ten-millionth. *)
Definition small_price_trade : list (string * PyVal) :=
  [("market", PyStr "SHIB-USDT"); ("price", PyStr "0.0000001");
   ("amount", PyStr "1000"); ("total", PyStr "0.0001");
   ("type", PyStr "buy"); ("timestamp", PyStr "2024-01-01T10:00:00+00:00")].

(** The date-time without its offset. *)
Definition naive (d : pydatetime.datetime) : pydatetime.datetime :=
  pydatetime.mkDatetime (pydatetime.year d) (pydatetime.month d) (pydatetime.day d)
    (pydatetime.hour d) (pydatetime.minute d) (pydatetime.second d)
    (pydatetime.microsecond d) None.

(** The trade record of the tests of the trade schema, with a given
    [type] and [timestamp]. *)
Definition sample_trade (ty ts : PyVal) : list (string * PyVal) :=
  [("market", PyStr "BTC-USDT"); ("price", PyStr "50000.123456789");
   ("amount", PyStr "0.987654321"); ("total", PyStr "49350.4917");
   ("type", ty); ("timestamp", ts)].

(** A valid and an invalid batch of trades, for the multi-symbol example. *)
Definition valid_batch : PyVal :=
  PyDict [("trades", PyList [PyDict (sample_trade (PyStr "buy") (PyStr "2024-01-01"))]);
          ("status", PyStr "ok")].

Definition invalid_batch : PyVal :=
  PyDict [("trades", PyList [PyDict (sample_trade (PyStr "invalid") (PyStr "2024-01-01"))]);
          ("status", PyStr "ok")].

(** An object whose four price attributes are decimals. *)
Definition candle_object (o h l c : decimal.Decimal) : PyVal :=
  PyObj "SimpleNamespace"
    [("open", PyDecimal o); ("high", PyDecimal h); ("low", PyDecimal l);
     ("close", PyDecimal c)].

Definition dec_lt (a b : decimal.Decimal) : bool :=
  match decimal.compare a b with Some Lt => true | _ => false end.

Definition dec_gt (a b : decimal.Decimal) : bool :=
  match decimal.compare a b with Some Gt => true | _ => false end.

(** The candle of [test_negative_values_rejected]: open -5, high 0,
    low -10, close -1, volume 0; the high is not below the open or the
    close, the low not above them. *)
Definition negative_candle : PyVal :=
  PyList [PyInt 1699000000000; PyStr "-5"; PyStr "0"; PyStr "-10"; PyStr "-1"; PyStr "0"].

(** The candle of the high/low example: high 90 below open 100. *)
Definition high_below_open : PyVal :=
  PyList [PyInt 0; PyStr "100"; PyStr "90"; PyStr "50"; PyStr "95"; PyStr "1"].

(** The characters of the text [str] gives for a finite decimal. *)
Definition scientific_char (c : ascii) : bool :=
  literal_char c || Ascii.eqb c "E" || Ascii.eqb c "+".

(** A run of digits that [str(int(ds))] leaves as it is. *)
Definition canonical_chars (ds : chars) : Prop :=
  forallb is_digit ds = true /\ canonical_digits ds = ds.

(** A decimal as the constructors of [Decimal] build it: the coefficient
    of a finite value is a canonical run of digits. *)
Definition well_formed (d : decimal.Decimal) : Prop :=
  match d with
  | decimal.Finite _ c _ => canonical_chars (list_ascii_of_string c)
  | _ => True
  end.

(** The exponent of a finite decimal. *)
Definition exponent (d : decimal.Decimal) : Z :=
  match d with
  | decimal.Finite _ _ e => e
  | _ => 0
  end.

(** A finite decimal counted in units of [10 ^ e0], for [e0] not above
    its exponent. *)
Definition scaled (e0 : Z) (d : decimal.Decimal) : Z :=
  match d with
  | decimal.Finite s c e => decimal.signed_coeff s c * 10 ^ (e - e0)
  | _ => 0
  end.

(** The error lines of the items of a sequence, each under the index of
    the item it comes from, counting from [i]. *)
Fixpoint indexed_errors {A} (item : PyVal -> outcome A) (i : nat) (l : list PyVal)
    : list ErrorDetails :=
  match l with
  | [] => []
  | x :: r => map (prefix_loc (LocIndex i)) (errors_of (item x)) ++ indexed_errors item (S i) r
  end%list.

(** The error lines the validator of the trade field [f] gives for the
    value [v]. *)
Definition trade_value_errors `{Runtime} (f : string) (v : PyVal) : list ErrorDetails :=
  if (f =? "market")%string then errors_of (str_validator v)
  else if (f =? "type")%string then errors_of (literal_validator ["buy"; "sell"] v)
  else if (f =? "timestamp")%string then errors_of (trade_schema.timestamp_validator v)
  else errors_of (decimal_validator v).

(** The keyed record that holds the fields of a trade entry. *)
Definition TradeEntry_record (e : trade_schema.TradeEntry) : PyVal :=
  PyDict [("market", PyStr (trade_schema.market e));
          ("price", PyDecimal (trade_schema.price e));
          ("amount", PyDecimal (trade_schema.amount e));
          ("total", PyDecimal (trade_schema.total e));
          ("type", PyStr (trade_schema.type e));
          ("timestamp", PyStr (trade_schema.timestamp e))].

(** The same record with each decimal as the text [str] gives for it. *)
Definition TradeEntry_text_record (e : trade_schema.TradeEntry) : PyVal :=
  PyDict [("market", PyStr (trade_schema.market e));
          ("price", PyStr (decimal.to_string (trade_schema.price e)));
          ("amount", PyStr (decimal.to_string (trade_schema.amount e)));
          ("total", PyStr (decimal.to_string (trade_schema.total e)));
          ("type", PyStr (trade_schema.type e));
          ("timestamp", PyStr (trade_schema.timestamp e))].

(** The keyed record of a candle of the test module, each decimal as the
    text [str] gives for it. *)
Definition OHLCEntry_text_record (e : test_ohcl.OHLCEntry) : PyVal :=
  candle_record (PyInt (test_ohcl.timestamp e))
    (PyStr (decimal.to_string (test_ohcl.open e)))
    (PyStr (decimal.to_string (test_ohcl.high e)))
    (PyStr (decimal.to_string (test_ohcl.low e)))
    (PyStr (decimal.to_string (test_ohcl.close e)))
    (PyStr (decimal.to_string (test_ohcl.volume e))).

(** Every [Decimal] object among the values of a dict is well formed. *)
Definition decimal_values_well_formed (d : list (string * PyVal)) : Prop :=
  forall k x, lookup k d = Some (PyDecimal x) -> well_formed x.

(** The offset from UTC of [hh] hours and [mm] minutes, east of
    Greenwich or, when [neg], west of it, in microseconds. *)
Definition minute_offset (neg : bool) (hh mm : N) : Z :=
  let a := Z.of_N ((hh * 60 + mm) * 60000000) in
  if neg then - a else a.

(** A candle given as seven positional values. *)
Definition seven_elements : list PyVal :=
  [PyInt 1699000000000; PyStr "50000.5"; PyStr "51000.0"; PyStr "49500.0";
   PyStr "50500.0"; PyStr "100.5"; PyStr "ignored"].

(** The entry that [sample_trade] validates to when its type is
    ["buy"]. *)
Definition sample_trade_entry (ts : string) : trade_schema.TradeEntry :=
  trade_schema.mkTradeEntry "BTC-USDT"
    (decimal.Finite false "50000123456789" (-9))
    (decimal.Finite false "987654321" (-9))
    (decimal.Finite false "493504917" (-4)) "buy" ts.

(** A batch whose second trade has an unknown type. *)
Definition mixed_batch : list (string * PyVal) :=
  [("trades", PyList [PyDict (sample_trade (PyStr "buy") (PyStr "2024-01-01"));
                      PyDict (sample_trade (PyStr "hold") (PyStr "2024-01-02"))]);
   ("status", PyStr "ok")].

(** A trade record without its price. *)
Definition trade_without_price : list (string * PyVal) :=
  [("market", PyStr "BTC-USDT"); ("amount", PyStr "0.1"); ("total", PyStr "5000");
   ("type", PyStr "buy"); ("timestamp", PyStr "2024-01-01")].

(** A date-time in a zone three and a half hours east of Greenwich. *)
Definition tehran_time : pydatetime.datetime :=
  pydatetime.mkDatetime 2018 11 18 15 26 7 798845 (Some (minute_offset false 3 30)).





(** The sign a numeral is written with. *)
Inductive sign_mark : Type :=
| no_sign
| plus_sign
| minus_sign.

Definition sign_text (m : sign_mark) : chars :=
  match m with
  | no_sign => []
  | plus_sign => ["+"%char]
  | minus_sign => ["-"%char]
  end.

Definition is_minus (m : sign_mark) : bool :=
  match m with minus_sign => true | _ => false end.

(** The exponent part of a numeral: the letter, in either case, a sign
    and digits. *)
Record exponent_part : Type := mkExponent {
  upper_case : bool;
  exponent_sign : sign_mark;
  exponent_digits : chars
}.

Definition exponent_text (x : option exponent_part) : chars :=
  match x with
  | None => []
  | Some p =>
      ((if upper_case p then "E"%char else "e"%char) ::
       sign_text (exponent_sign p) ++ exponent_digits p)%list
  end.

(** The power of ten the exponent part stands for. *)
Definition exponent_value (x : option exponent_part) : Z :=
  match x with
  | None => 0
  | Some p =>
      let n := Z.of_N (digits_to_N (exponent_digits p)) in
      if is_minus (exponent_sign p) then - n else n
  end.

(** An exponent part, when there is one, has at least one digit and
    digits only. *)
Definition exponent_written (x : option exponent_part) : bool :=
  match x with
  | None => true
  | Some p =>
      forallb is_digit (exponent_digits p) &&
      match exponent_digits p with [] => false | _ => true end
  end.

(** The exponent and the number of digits of a numeral stay within what
    [Decimal] can hold (18 digits of exponent). *)
Definition within_decimal_limits (ip fp : chars) (x : option exponent_part) : bool :=
  Z.abs (exponent_value x) + Z.of_nat (List.length (ip ++ fp)%list) <=? 999999999999999999.

(** A decimal numeral as it can be written: white space, a sign, the
    digits of the integer part, a point and the digits of the fraction
    when there are any, an exponent part, white space. *)
Definition numeral (w1 : string) (m : sign_mark) (ip fp : chars)
    (x : option exponent_part) (w2 : string) : string :=
  w1 ++
  string_of_list_ascii
    (sign_text m ++ ip ++ match fp with [] => [] | _ => "."%char :: fp end ++
     exponent_text x)%list ++
  w2.

(** The characters of a numeral between the white space. *)
Definition numeral_char (c : ascii) : bool :=
  scientific_char c || Ascii.eqb c "e".

(** An integer of 4301 digits. *)
Definition huge_int : Z := 10 ^ 4300.

(** A text made of white space only. *)
Definition blank (w : string) : bool := forallb is_space (list_ascii_of_string w).

(** The text [str] gives for a finite decimal: an optional minus, an
    integer part, an optional fraction and an optional exponent. *)
Definition layout (neg : bool) (ip fp : chars) (z : Z) : string :=
  (if neg then "-" else "") ++
  string_of_list_ascii (ip ++ match fp with [] => [] | _ => "."%char :: fp end)%list ++
  (if z =? 0 then "" else "E" ++ format_plus_d z).

End props.

(* ================================================================== *)
(** ** Facts about the validation combinators *)

Module pydantic_facts.
Import text py pydantic props.

Lemma ap_valid_inv {A B} (f : outcome (A -> B)) (x : outcome A) (b : B) :
  f <*> x = Valid b -> exists g a, f = Valid g /\ x = Valid a /\ b = g a.
Proof.
  destruct f as [g | es | e], x as [a | es' | e']; simpl; try discriminate.
  intros E. injection E as <-. exists g, a. auto.
Qed.

Lemma at_loc_valid_inv {A} (i : LocItem) (r : outcome A) (a : A) :
  at_loc i r = Valid a -> r = Valid a.
Proof. destruct r; simpl; congruence. Qed.

Lemma at_loc_raised_inv {A} (i : LocItem) (r : outcome A) (e : PyExc) :
  at_loc i r = Raised e -> r = Raised e.
Proof. destruct r; simpl; congruence. Qed.

Lemma ap_raised_inv {A B} (f : outcome (A -> B)) (x : outcome A) (e : PyExc) :
  f <*> x = Raised e -> f = Raised e \/ x = Raised e.
Proof.
  destruct f, x; simpl; try discriminate; intros E; injection E as <-; auto.
Qed.

Lemma field_valid_inv {A} (name : string) (val : PyVal -> outcome A) d (a : A) :
  field name val d = Valid a -> exists v, lookup name d = Some v /\ val v = Valid a.
Proof.
  unfold field. destruct (lookup name d) as [v |]; [| discriminate].
  intros E. exists v. split; [reflexivity | exact (at_loc_valid_inv _ _ _ E)].
Qed.

Lemma field_raised_inv {A} (name : string) (val : PyVal -> outcome A) d e :
  field name val d = Raised e -> exists v, val v = Raised e.
Proof.
  unfold field. destruct (lookup name d) as [v |]; [| discriminate].
  intros E. exists v. exact (at_loc_raised_inv _ _ _ E).
Qed.

(** A field sees the dict only through the entry of its name. *)
Lemma field_present {A} (name : string) (val : PyVal -> outcome A) d v :
  lookup name d = Some v -> field name val d = at_loc (LocKey name) (val v).
Proof. unfold field. intros ->. reflexivity. Qed.

Lemma errors_of_ap {A B} (f : outcome (A -> B)) (x : outcome A) :
  (forall e, f <> Raised e) -> (forall e, x <> Raised e) ->
  errors_of (f <*> x) = (errors_of f ++ errors_of x)%list.
Proof.
  destruct f, x; simpl; intros Hf Hx; try reflexivity;
    try (exfalso; eapply Hf; reflexivity); try (exfalso; eapply Hx; reflexivity).
  now rewrite app_nil_r.
Qed.

Lemma ap_not_raised {A B} (f : outcome (A -> B)) (x : outcome A) :
  (forall e, f <> Raised e) -> (forall e, x <> Raised e) ->
  forall e, f <*> x <> Raised e.
Proof.
  intros Hf Hx e E. destruct (ap_raised_inv _ _ _ E) as [E' | E'].
  - exact (Hf _ E').
  - exact (Hx _ E').
Qed.

Lemma at_loc_not_raised {A} (i : LocItem) (r : outcome A) :
  (forall e, r <> Raised e) -> forall e, at_loc i r <> Raised e.
Proof. intros Hr e E. exact (Hr _ (at_loc_raised_inv _ _ _ E)). Qed.

Lemma field_not_raised {A} (name : string) (val : PyVal -> outcome A) d :
  never_raises val -> forall e, field name val d <> Raised e.
Proof.
  intros Hv e E. destruct (field_raised_inv _ _ _ _ E) as [v E']. exact (Hv _ _ E').
Qed.

Lemma valid_not_raised {A} (a : A) : forall e, Valid a <> Raised e.
Proof. discriminate. Qed.

Lemma lookup_restrict known k d :
  In k known -> lookup k (restrict known d) = lookup k d.
Proof.
  intros Hk. induction d as [| [k' v] r IH]; [reflexivity |].
  unfold restrict in *. cbn [filter fst].
  destruct (existsb (String.eqb k') known) eqn:Ek'.
  - cbn [lookup]. now rewrite IH.
  - cbn [lookup]. destruct (String.eqb_spec k k') as [-> | _]; [| exact IH].
    exfalso. assert (Hex : existsb (String.eqb k') known = true).
    { apply existsb_exists. exists k'. split; [exact Hk | apply String.eqb_refl]. }
    congruence.
Qed.

(** A field that is present reads the same from the restricted dict. *)
Lemma field_restrict {A} (name : string) (val : PyVal -> outcome A) known d :
  In name known -> lookup name d <> None ->
  field name val (restrict known d) = field name val d.
Proof.
  intros Hin Hpresent. unfold field. rewrite (lookup_restrict _ _ _ Hin).
  destruct (lookup name d); [reflexivity | congruence].
Qed.

Section Scalars.
Context `{Runtime}.

Lemma int_validator_never_raises : never_raises int_validator.
Proof.
  intros v e. destruct v; simpl; try discriminate.
  - destruct (str_as_int s); discriminate.
  - destruct (decimal.is_finite d); [destruct (decimal.as_integer d) |]; discriminate.
Qed.

Lemma decimal_validator_never_raises : never_raises decimal_validator.
Proof.
  intros v e. destruct v; simpl; try discriminate.
  - destruct (decimal.of_string s) as [d |]; [destruct (decimal.is_finite d) |]; discriminate.
  - destruct (decimal.is_finite d); discriminate.
Qed.

Lemma str_validator_never_raises : never_raises str_validator.
Proof. intros v e. destruct v; discriminate. Qed.

Lemma literal_validator_never_raises expected : never_raises (literal_validator expected).
Proof.
  intros v e. destruct v; simpl; try discriminate.
  destruct (existsb (String.eqb s) expected); discriminate.
Qed.

End Scalars.

Lemma validate_items_never_raises {A} (item : PyVal -> outcome A) :
  never_raises item -> forall l i e, validate_items item i l <> Raised e.
Proof.
  intros Hitem l. induction l as [| x r IH]; intros i e; cbn [validate_items].
  - discriminate.
  - apply ap_not_raised; [apply ap_not_raised |].
    + apply valid_not_raised.
    + apply at_loc_not_raised. intros e'. apply Hitem.
    + intros e'. apply IH.
Qed.

Lemma list_validator_never_raises {A} (item : PyVal -> outcome A) :
  never_raises item -> never_raises (list_validator item).
Proof.
  intros Hitem v e. destruct v; simpl; try discriminate;
    apply validate_items_never_raises; assumption.
Qed.

Lemma model_fields_never_raises {A} cls (fields : list (string * PyVal) -> outcome A) :
  (forall d e, fields d <> Raised e) -> never_raises (model_fields_validator cls fields).
Proof. intros Hf v e. destruct v; simpl; try discriminate. apply Hf. Qed.

End pydantic_facts.

(* ================================================================== *)
(** ** The candle schema *)

Module ohcl_facts.
Import text py pydantic props pydantic_facts.

Section Candles.
Context `{Runtime}.

(** *** Shape normalisation *)

Lemma parse_list_six t o h l c v rest :
  ohcl_schema.parse_list (PyList (t :: o :: h :: l :: c :: v :: rest))
  = candle_record t o h l c v.
Proof. reflexivity. Qed.

Lemma parse_list_five t o h l c :
  ohcl_schema.parse_list (PyList [t; o; h; l; c])
  = candle_record t o h l c (PyDecimal ohcl_schema.Decimal_0).
Proof. reflexivity. Qed.

Lemma parse_list_not_sequence v :
  (forall l, v <> PyList l) -> (forall l, v <> PyTuple l) -> ohcl_schema.parse_list v = v.
Proof. intros Hl Ht. destruct v; try reflexivity; [destruct (Hl _ eq_refl) | destruct (Ht _ eq_refl)]. Qed.

Lemma parse_list_short l :
  (List.length l < 5)%nat -> ohcl_schema.parse_list (PyList l) = PyList l.
Proof.
  intros Hlen. unfold ohcl_schema.parse_list.
  destruct (Nat.leb_spec 6 (List.length l)); [lia |].
  destruct (Nat.eqb_spec (List.length l) 5); [lia | reflexivity].
Qed.

Lemma parse_list_short_tuple l :
  (List.length l < 5)%nat -> ohcl_schema.parse_list (PyTuple l) = PyTuple l.
Proof.
  intros Hlen. unfold ohcl_schema.parse_list.
  destruct (Nat.leb_spec 6 (List.length l)); [lia |].
  destruct (Nat.eqb_spec (List.length l) 5); [lia | reflexivity].
Qed.

Lemma test_parse_list_short l :
  (List.length l < 5)%nat -> test_ohcl.parse_list (PyList l) = PyList l.
Proof.
  intros Hlen. unfold test_ohcl.parse_list.
  destruct (Nat.leb_spec 6 (List.length l)); [lia |].
  destruct (Nat.eqb_spec (List.length l) 5); [lia | reflexivity].
Qed.

Lemma test_parse_list_short_tuple l :
  (List.length l < 5)%nat -> test_ohcl.parse_list (PyTuple l) = PyTuple l.
Proof.
  intros Hlen. unfold test_ohcl.parse_list.
  destruct (Nat.leb_spec 6 (List.length l)); [lia |].
  destruct (Nat.eqb_spec (List.length l) 5); [lia | reflexivity].
Qed.

(** [Decimal("0")] is the value the five-element branch writes. *)
Lemma Decimal_0_literal : decimal.of_string "0" = Some ohcl_schema.Decimal_0.
Proof. reflexivity. Qed.

(** *** The hook [validate_high_low] on the raw input *)

(** A value without instance attributes stops the hook at [self.high]. *)
Lemma validate_high_low_builtin v :
  (forall cls attrs, v <> PyObj cls attrs) ->
  ohcl_schema.validate_high_low v = raise (AttributeError (type_name v) "high").
Proof.
  intros Hobj. destruct v; try reflexivity. destruct (Hobj _ _ eq_refl).
Qed.

(** What the hook returns is its argument. *)
Lemma validate_high_low_returns_self v w :
  ohcl_schema.validate_high_low v = inr w -> w = v.
Proof.
  unfold ohcl_schema.validate_high_low, bind.
  repeat match goal with
         | |- context [match ?x with _ => _ end] => destruct x; try discriminate
         end.
  unfold ret. congruence.
Qed.

Lemma compare_finite a b :
  decimal.is_finite a = true -> decimal.is_finite b = true ->
  exists k, decimal.compare a b = Some k.
Proof.
  destruct a as [s1 c1 e1 | |], b as [s2 c2 e2 | |]; try discriminate. intros _ _.
  cbn [decimal.compare].
  destruct (decimal.aligned (decimal.signed_coeff s1 c1) e1 (decimal.signed_coeff s2 c2) e2).
  eauto.
Qed.

(** On an object whose four prices are finite decimals the hook applies
    the high/low rule, whatever the class and the other attributes of the
    object. *)
Lemma validate_high_low_rule cls attrs o h l c :
  lookup "open" attrs = Some (PyDecimal o) -> lookup "high" attrs = Some (PyDecimal h) ->
  lookup "low" attrs = Some (PyDecimal l) -> lookup "close" attrs = Some (PyDecimal c) ->
  decimal.is_finite o = true -> decimal.is_finite h = true ->
  decimal.is_finite l = true -> decimal.is_finite c = true ->
  ohcl_schema.validate_high_low (PyObj cls attrs)
  = if dec_lt h (if dec_gt c o then c else o)
    then raise (ValueError "High must be >= max(open, close)")
    else if dec_gt l (if dec_lt c o then c else o)
         then raise (ValueError "Low must be <= min(open, close)")
         else ret (PyObj cls attrs).
Proof.
  intros Eo Eh El Ec Ho Hh Hl Hc.
  unfold ohcl_schema.validate_high_low, getattr. rewrite Eo, Eh, El, Ec.
  unfold dec_lt, dec_gt, py_max, py_min, py_lt, py_gt, bind, ret, raise.
  cbn -[decimal.compare].
  repeat match goal with
         | |- context [decimal.compare ?a ?b] =>
             let k := fresh "k" in
             let Hk := fresh "Hk" in
             destruct (compare_finite a b ltac:(assumption) ltac:(assumption)) as [k Hk];
             rewrite !Hk; destruct k; cbn -[decimal.compare]
         end;
  reflexivity.
Qed.

(** [OHCLEntry.model_validate] on any list. *)
Lemma OHCLEntry_validate_list l :
  ohcl_schema.OHCLEntry_validate (PyList l) = Raised (AttributeError "list" "high").
Proof. reflexivity. Qed.

(** [OHCLEntry.model_validate] on any dict. *)
Lemma OHCLEntry_validate_dict d :
  ohcl_schema.OHCLEntry_validate (PyDict d) = Raised (AttributeError "dict" "high").
Proof. reflexivity. Qed.

(** *** The model of the test module *)

(** The hook of the test module turns the positional form into the keyed
    one before the fields are read. *)
Lemma test_positional_is_keyed t o h l c v rest :
  test_ohcl.OHLCEntry_validate (PyList (t :: o :: h :: l :: c :: v :: rest))
  = test_ohcl.OHLCEntry_validate (candle_record t o h l c v).
Proof. reflexivity. Qed.

Lemma test_keyed_valid t o h l c v t' o' h' l' c' v' :
  int_validator t = Valid t' ->
  decimal_validator o = Valid o' -> decimal_validator h = Valid h' ->
  decimal_validator l = Valid l' -> decimal_validator c = Valid c' ->
  decimal_validator v = Valid v' ->
  test_ohcl.OHLCEntry_validate (candle_record t o h l c v)
  = Valid (test_ohcl.mkOHLCEntry t' o' h' l' c' v').
Proof.
  intros Ht Ho Hh Hl Hc Hv.
  unfold test_ohcl.OHLCEntry_validate, before_validator, candle_record,
    model_fields_validator, test_ohcl.OHLCEntry_fields, field; cbn [ret test_ohcl.parse_list].
  cbn [lookup String.eqb Ascii.eqb Bool.eqb].
  rewrite Ht, Ho, Hh, Hl, Hc, Hv. reflexivity.
Qed.

(** In the test module a five-element candle gets the volume zero. *)
Lemma test_five_elements_volume t o h l c t' o' h' l' c' :
  int_validator t = Valid t' ->
  decimal_validator o = Valid o' -> decimal_validator h = Valid h' ->
  decimal_validator l = Valid l' -> decimal_validator c = Valid c' ->
  test_ohcl.OHLCEntry_validate (PyList [t; o; h; l; c])
  = Valid (test_ohcl.mkOHLCEntry t' o' h' l' c' ohcl_schema.Decimal_0).
Proof.
  intros Ht Ho Hh Hl Hc.
  change (test_ohcl.OHLCEntry_validate (PyList [t; o; h; l; c]))
    with (test_ohcl.OHLCEntry_validate (candle_record t o h l c (PyStr "0"))).
  apply test_keyed_valid; try assumption. reflexivity.
Qed.

(** A record with all six fields validates like its restriction to
    them. *)
Lemma test_extra_keys_ignored d :
  (forall k, In k candle_fields -> lookup k d <> None) ->
  test_ohcl.OHLCEntry_validate (PyDict d)
  = test_ohcl.OHLCEntry_validate (PyDict (restrict candle_fields d)).
Proof.
  intros Hall.
  unfold test_ohcl.OHLCEntry_validate, before_validator, model_fields_validator,
    test_ohcl.OHLCEntry_fields; cbn [ret test_ohcl.parse_list].
  rewrite !(field_restrict _ _ candle_fields d) by (try apply Hall; simpl; tauto).
  reflexivity.
Qed.

(** The input of [test_negative_values_rejected]: negative and zero
    quantities pass. *)
Lemma test_negative_values_accepted :
  test_ohcl.OHLCEntry_validate negative_candle
  = Valid (test_ohcl.mkOHLCEntry 1699000000000
             (decimal.Finite true "5" 0) (decimal.Finite false "0" 0)
             (decimal.Finite true "10" 0) (decimal.Finite true "1" 0)
             (decimal.Finite false "0" 0)).
Proof. reflexivity. Qed.

End Candles.

End ohcl_facts.

(* ================================================================== *)
(** ** The trade schema *)

Module trade_facts.
Import text py pydantic props pydantic_facts.

Lemma errors_at_app k es1 es2 :
  errors_at k (es1 ++ es2) = (errors_at k es1 ++ errors_at k es2)%list.
Proof. apply filter_app. Qed.

Lemma errors_at_prefix k k' es :
  errors_at k (map (prefix_loc (LocKey k')) es)
  = if (k =? k')%string then map (prefix_loc (LocKey k')) es else [].
Proof.
  induction es as [| e r IH].
  - simpl. now destruct (k =? k')%string.
  - unfold errors_at in *. cbn [map filter prefix_loc loc]. rewrite IH.
    now destruct (k =? k')%string.
Qed.

(** The error lines of a field all sit under its name. *)
Lemma errors_at_field {A} k name (val : PyVal -> outcome A) d :
  errors_at k (errors_of (field name val d))
  = if (k =? name)%string then errors_of (field name val d) else [].
Proof.
  unfold field. destruct (lookup name d) as [v |].
  - destruct (val v) as [a | es | e]; simpl; try now destruct (k =? name)%string.
    apply errors_at_prefix.
  - simpl. now destruct (k =? name)%string.
Qed.

Section Trades.
Context `{Runtime}.

(** The only exception of the hook is the [ValueError] of [str]. *)
Lemma py_str_raises v e :
  py_str v = inl e -> e = ValueError int_str_limit_message.
Proof.
  destruct v; cbn [py_str]; unfold ret, raise; try discriminate.
  - destruct (exceeds_int_str_limit z); [congruence | discriminate].
  - destruct (object_str _); [discriminate | congruence].
  - destruct (object_str _); [discriminate | congruence].
  - destruct (object_str _); [discriminate | congruence].
  - destruct (object_str _); [discriminate | congruence].
Qed.

Lemma validate_timestamp_raises v e :
  trade_schema.validate_timestamp v = inl e -> e = ValueError int_str_limit_message.
Proof.
  destruct v; try apply py_str_raises. discriminate.
Qed.

(** The [timestamp] field stores the string the hook returns, and reports
    the [ValueError] of the hook as an error line. *)
Lemma timestamp_validator_spec v :
  trade_schema.timestamp_validator v
  = match trade_schema.validate_timestamp v with
    | inr s => Valid s
    | inl _ => fail (value_error int_str_limit_message) v
    end.
Proof.
  unfold trade_schema.timestamp_validator, before_validator, bind.
  destruct (trade_schema.validate_timestamp v) as [e | s] eqn:E; [| reflexivity].
  now rewrite (validate_timestamp_raises _ _ E).
Qed.


Lemma timestamp_validator_valid_inv v s :
  trade_schema.timestamp_validator v = Valid s -> trade_schema.validate_timestamp v = ret s.
Proof.
  rewrite timestamp_validator_spec.
  destruct (trade_schema.validate_timestamp v); [discriminate |].
  intros E. injection E as <-. reflexivity.
Qed.

Lemma timestamp_validator_never_raises : never_raises trade_schema.timestamp_validator.
Proof.
  intros v e. rewrite timestamp_validator_spec.
  destruct (trade_schema.validate_timestamp v); discriminate.
Qed.

Lemma TradeEntry_fields_not_raised d e : trade_schema.TradeEntry_fields d <> Raised e.
Proof.
  unfold trade_schema.TradeEntry_fields.
  repeat apply ap_not_raised; try apply valid_not_raised; apply field_not_raised;
    auto using str_validator_never_raises, decimal_validator_never_raises,
      literal_validator_never_raises, timestamp_validator_never_raises.
Qed.

Lemma TradeEntry_never_raises : never_raises trade_schema.TradeEntry_validate.
Proof. apply model_fields_never_raises. exact TradeEntry_fields_not_raised. Qed.

Lemma NubitexTrades_never_raises : never_raises trade_schema.NubitexTrades_validate.
Proof.
  apply model_fields_never_raises. intros d.
  repeat apply ap_not_raised; try apply valid_not_raised; apply field_not_raised.
  - apply list_validator_never_raises, TradeEntry_never_raises.
  - apply str_validator_never_raises.
Qed.

(** A valid trade entry holds what each field validator returned. *)
Lemma TradeEntry_fields_valid_inv d e :
  trade_schema.TradeEntry_fields d = Valid e ->
  field "market" str_validator d = Valid (trade_schema.market e) /\
  field "price" decimal_validator d = Valid (trade_schema.price e) /\
  field "amount" decimal_validator d = Valid (trade_schema.amount e) /\
  field "total" decimal_validator d = Valid (trade_schema.total e) /\
  field "type" (literal_validator ["buy"; "sell"]) d = Valid (trade_schema.type e) /\
  field "timestamp" trade_schema.timestamp_validator d = Valid (trade_schema.timestamp e).
Proof.
  unfold trade_schema.TradeEntry_fields. intros E.
  apply ap_valid_inv in E as (g6 & ts & E & Ets & ->).
  apply ap_valid_inv in E as (g5 & ty & E & Ety & ->).
  apply ap_valid_inv in E as (g4 & to & E & Eto & ->).
  apply ap_valid_inv in E as (g3 & am & E & Eam & ->).
  apply ap_valid_inv in E as (g2 & pr & E & Epr & ->).
  apply ap_valid_inv in E as (g1 & ma & E & Ema & ->).
  injection E as <-. simpl. auto 10.
Qed.

(** The error lines of a trade entry are those of its fields, in the
    order of declaration. *)
Lemma TradeEntry_fields_errors d :
  errors_of (trade_schema.TradeEntry_fields d)
  = (errors_of (field "market" str_validator d) ++
     errors_of (field "price" decimal_validator d) ++
     errors_of (field "amount" decimal_validator d) ++
     errors_of (field "total" decimal_validator d) ++
     errors_of (field "type" (literal_validator ["buy"; "sell"]) d) ++
     errors_of (field "timestamp" trade_schema.timestamp_validator d))%list.
Proof.
  unfold trade_schema.TradeEntry_fields.
  rewrite !errors_of_ap;
    repeat first
      [ apply valid_not_raised
      | apply ap_not_raised
      | apply field_not_raised;
        auto using str_validator_never_raises, decimal_validator_never_raises,
          literal_validator_never_raises, timestamp_validator_never_raises ].
  simpl. now rewrite <- !app_assoc.
Qed.

(** The error lines under a key are those of the field of that name. *)
Lemma TradeEntry_errors_at_type d :
  errors_at "type" (errors_of (trade_schema.TradeEntry_validate (PyDict d)))
  = errors_of (field "type" (literal_validator ["buy"; "sell"]) d).
Proof.
  cbn [trade_schema.TradeEntry_validate model_fields_validator].
  rewrite TradeEntry_fields_errors, !errors_at_app, !errors_at_field. simpl.
  now rewrite app_nil_r.
Qed.


(** The literal validator accepts the two tokens and nothing else. *)
Lemma literal_buy_sell v :
  (v = PyStr "buy" \/ v = PyStr "sell") \/
  ((v <> PyStr "buy" /\ v <> PyStr "sell") /\
   literal_validator ["buy"; "sell"] v = fail (literal_error ["buy"; "sell"]) v).
Proof.
  destruct v; try (right; split; [split; discriminate | reflexivity]).
  simpl. destruct (String.eqb_spec s "buy") as [-> | Hb]; [left; left; reflexivity |].
  destruct (String.eqb_spec s "sell") as [-> | Hs]; [left; right; reflexivity |].
  right. split; [split; congruence | reflexivity].
Qed.

(** A record with all six fields validates like its restriction to
    them. *)
Lemma trade_extra_keys_ignored d :
  (forall k, In k trade_fields -> lookup k d <> None) ->
  trade_schema.TradeEntry_validate (PyDict d)
  = trade_schema.TradeEntry_validate (PyDict (restrict trade_fields d)).
Proof.
  intros Hall.
  unfold trade_schema.TradeEntry_validate, model_fields_validator, trade_schema.TradeEntry_fields.
  rewrite !(field_restrict _ _ trade_fields d) by (try apply Hall; simpl; tauto).
  reflexivity.
Qed.

End Trades.

End trade_facts.

(* ================================================================== *)
(** ** Decimal literals *)

Module decimal_facts.
Import text py pydantic props.
Local Open Scope list_scope.

Lemma literal_char_not_space c : literal_char c = true -> is_space c = false.
Proof. by_cases_on_char c. Qed.

Lemma literal_char_not_underscore c :
  literal_char c = true -> negb (Ascii.eqb c "_") = true.
Proof. by_cases_on_char c. Qed.

Lemma digit_is_literal_char c : is_digit c = true -> literal_char c = true.
Proof. unfold literal_char. intros ->. reflexivity. Qed.

Lemma split_sign_digit c r : is_digit c = true -> split_sign (c :: r) = (false, c :: r).
Proof. by_cases_on_char c. Qed.

Lemma drop_while_all_false p l :
  forallb (fun c => negb (p c)) l = true -> drop_while p l = l.
Proof.
  destruct l as [| c r]; [reflexivity |]. simpl.
  destruct (p c); [discriminate | reflexivity].
Qed.

Lemma strip_no_space l :
  forallb (fun c => negb (is_space c)) l = true -> strip l = l.
Proof.
  intros Hl. unfold strip. rewrite (drop_while_all_false _ _ Hl).
  rewrite drop_while_all_false; [apply rev_involutive |].
  apply forallb_forall. intros c Hc. apply in_rev in Hc.
  exact (proj1 (forallb_forall _ _) Hl c Hc).
Qed.

Lemma remove_underscores_none l :
  forallb (fun c => negb (Ascii.eqb c "_")) l = true -> remove_underscores l = l.
Proof.
  unfold remove_underscores. induction l as [| c r IH]; [reflexivity |].
  simpl. destruct (negb (Ascii.eqb c "_")); [| discriminate].
  intros Hr. now rewrite IH.
Qed.

Lemma span_digits a r :
  forallb is_digit a = true ->
  match r with [] => True | c :: _ => is_digit c = false end ->
  span is_digit (a ++ r) = (a, r).
Proof.
  intros Ha Hr. induction a as [| c a IH]; simpl in *.
  - destruct r as [| c r]; [reflexivity |]. simpl. now rewrite Hr.
  - apply andb_true_iff in Ha as [-> Ha]. now rewrite (IH Ha).
Qed.

Lemma canonical_digits_nonzero c r :
  Ascii.eqb "0" c = false -> canonical_digits (c :: r) = c :: r.
Proof. unfold canonical_digits. simpl. now intros ->. Qed.

Lemma canonical_digits_zero r : canonical_digits ("0"%char :: r) = canonical_digits r.
Proof. reflexivity. Qed.

(** The zeros that [canonical_digits] removes, put back. *)
Lemma canonical_digits_padding ds :
  ds <> [] ->
  (zeros (List.length ds - List.length (canonical_digits ds)) ++ canonical_digits ds)%list = ds
  /\ (List.length (canonical_digits ds) <= List.length ds)%nat.
Proof.
  induction ds as [| c r IH]; [congruence |]. intros _.
  destruct (Ascii.eqb "0" c) eqn:Ec.
  - apply Ascii.eqb_eq in Ec. subst c. rewrite canonical_digits_zero.
    destruct r as [| c' r'].
    + split; [reflexivity | simpl; lia].
    + destruct (IH ltac:(discriminate)) as [IH1 IH2].
      set (rest := c' :: r') in *. set (m := List.length (canonical_digits rest)) in *.
      split; [| cbn [List.length]; lia].
      replace (List.length ("0"%char :: rest) - m)%nat with (S (List.length rest - m))
        by (cbn [List.length]; lia).
      cbn [zeros repeat app]. unfold zeros in IH1. now rewrite IH1.
  - rewrite (canonical_digits_nonzero _ _ Ec). rewrite Nat.sub_diag. split; [reflexivity | lia].
Qed.

(** Leading zeros do not change the number. *)
Lemma digits_to_N_canonical ds : digits_to_N (canonical_digits ds) = digits_to_N ds.
Proof.
  induction ds as [| c r IH]; [reflexivity |].
  destruct (Ascii.eqb "0" c) eqn:Ec.
  - apply Ascii.eqb_eq in Ec. subst c. rewrite canonical_digits_zero, IH. reflexivity.
  - now rewrite (canonical_digits_nonzero _ _ Ec).
Qed.

Lemma plain_literal_chars neg ip fp :
  forallb is_digit ip = true -> forallb is_digit fp = true ->
  forallb literal_char
    ((if neg : bool then ["-"%char] else []) ++ ip ++
     match fp with [] => [] | _ => "."%char :: fp end) = true.
Proof.
  intros Hip Hfp. rewrite !forallb_app. repeat (apply andb_true_iff; split).
  - now destruct neg.
  - apply forallb_forall. intros c Hc. apply digit_is_literal_char.
    exact (proj1 (forallb_forall _ _) Hip c Hc).
  - destruct fp as [| f fp']; [reflexivity |].
    change (forallb literal_char ("."%char :: f :: fp'))
      with (forallb literal_char (f :: fp')).
    apply forallb_forall. intros c Hc. apply digit_is_literal_char.
    exact (proj1 (forallb_forall _ _) Hfp c Hc).
Qed.

Lemma forallb_weaken (p q : ascii -> bool) l :
  (forall c, p c = true -> q c = true) -> forallb p l = true -> forallb q l = true.
Proof.
  intros Hpq Hl. apply forallb_forall. intros c Hc.
  apply Hpq. exact (proj1 (forallb_forall _ _) Hl c Hc).
Qed.

(** The digits after the sign of a plain literal, read by the numeric
    alternative of the grammar. *)
Lemma parse_finite_plain sign ip fp :
  forallb is_digit ip = true -> forallb is_digit fp = true -> ip <> [] ->
  decimal.parse_finite sign (ip ++ match fp with [] => [] | _ => "."%char :: fp end)
  = Some (decimal.Finite sign (string_of_list_ascii (coefficient ip fp))
            (- Z.of_nat (List.length fp))).
Proof.
  intros Hip Hfp Hne. unfold decimal.parse_finite.
  rewrite (span_digits ip)
    by first [assumption | destruct fp; [exact I | reflexivity]].
  destruct ip as [| c ip']; [congruence |].
  assert (Hc : is_digit c = true) by (simpl in Hip; now apply andb_true_iff in Hip).
  cbn [app]. rewrite Hc. cbn [orb].
  destruct fp as [| f fp'].
  - reflexivity.
  - replace (span is_digit (f :: fp')) with (f :: fp', @nil ascii)
      by (symmetry; rewrite <- (app_nil_r (f :: fp')) at 1; now apply span_digits).
    reflexivity.
Qed.

(** [Decimal(s)] on a plain literal keeps every digit. *)
Lemma of_string_plain neg ip fp :
  forallb is_digit ip = true -> forallb is_digit fp = true -> ip <> [] ->
  decimal.of_string (plain_literal neg ip fp)
  = Some (decimal.Finite neg (string_of_list_ascii (coefficient ip fp))
            (- Z.of_nat (List.length fp))).
Proof.
  intros Hip Hfp Hne. unfold decimal.of_string, plain_literal.
  rewrite list_ascii_of_string_of_list_ascii.
  pose proof (plain_literal_chars neg ip fp Hip Hfp) as Hchars.
  rewrite strip_no_space
    by (revert Hchars; apply forallb_weaken; intros c Hc;
        now rewrite (literal_char_not_space c Hc)).
  rewrite remove_underscores_none
    by (revert Hchars; apply forallb_weaken; exact literal_char_not_underscore).
  destruct neg.
  - cbn [app split_sign]. now rewrite parse_finite_plain.
  - cbn [app]. destruct ip as [| c ip']; [congruence |].
    assert (Hc : is_digit c = true) by (simpl in Hip; now apply andb_true_iff in Hip).
    cbn [app]. rewrite (split_sign_digit _ _ Hc).
    change (c :: ip' ++ match fp with [] => [] | _ :: _ => "."%char :: fp end)
      with ((c :: ip') ++ match fp with [] => [] | _ :: _ => "."%char :: fp end).
    now rewrite parse_finite_plain.
Qed.

Lemma append_empty_r (s : string) : (s ++ "")%string = s.
Proof. induction s as [| c s IH]; [reflexivity |]. simpl. now rewrite IH. Qed.

(** [str(d)] when the point falls inside or right after the coefficient. *)
Lemma to_string_point_inside neg (a b : chars) :
  a <> [] ->
  decimal.to_string
    (decimal.Finite neg (string_of_list_ascii (a ++ b)) (- Z.of_nat (List.length b)))
  = string_of_list_ascii
      ((if neg then ["-"%char] else []) ++ a ++ match b with [] => [] | _ => "."%char :: b end).
Proof.
  intros Ha. unfold decimal.to_string. rewrite list_ascii_of_string_of_list_ascii.
  cbv zeta. rewrite length_app, Nat2Z.inj_add.
  assert (Hla : 0 < Z.of_nat (List.length a)) by (destruct a; [congruence | simpl; lia]).
  replace (- Z.of_nat (List.length b) + (Z.of_nat (List.length a) + Z.of_nat (List.length b)))
    with (Z.of_nat (List.length a)) by lia.
  replace (- Z.of_nat (List.length b) <=? 0) with true by (symmetry; apply Z.leb_le; lia).
  replace (-6 <? Z.of_nat (List.length a)) with true by (symmetry; apply Z.ltb_lt; lia).
  cbn [andb]. rewrite Z.eqb_refl.
  replace (Z.of_nat (List.length a) <=? 0) with false by (symmetry; apply Z.leb_gt; lia).
  rewrite Nat2Z.id.
  destruct b as [| c b'].
  - rewrite Z.add_0_r, Z.leb_refl, Z.sub_diag. cbn [Z.to_nat zeros repeat].
    rewrite append_empty_r, !app_nil_r. now destruct neg.
  - replace (Z.of_nat (List.length a) + Z.of_nat (List.length (c :: b')) <=? Z.of_nat (List.length a))
      with false by (symmetry; apply Z.leb_gt; cbn [List.length]; lia).
    rewrite append_empty_r.
    rewrite firstn_app, skipn_app, Nat.sub_diag, firstn_all, skipn_all.
    cbn [firstn skipn]. rewrite app_nil_r. cbn [app]. now destruct neg.
Qed.

(** [str(d)] when the coefficient starts after the point. *)
Lemma to_string_point_before neg (ds : chars) (e : nat) :
  (List.length ds <= e)%nat -> (e < List.length ds + 6)%nat ->
  decimal.to_string (decimal.Finite neg (string_of_list_ascii ds) (- Z.of_nat e))
  = string_of_list_ascii
      ((if neg then ["-"%char] else []) ++ "0"%char :: "."%char ::
       zeros (e - List.length ds) ++ ds).
Proof.
  intros Hle Hlt. unfold decimal.to_string. rewrite list_ascii_of_string_of_list_ascii.
  cbv zeta.
  replace (- Z.of_nat e <=? 0) with true by (symmetry; apply Z.leb_le; lia).
  replace (-6 <? - Z.of_nat e + Z.of_nat (List.length ds)) with true
    by (symmetry; apply Z.ltb_lt; lia).
  cbn [andb]. rewrite Z.eqb_refl.
  replace (- Z.of_nat e + Z.of_nat (List.length ds) <=? 0) with true
    by (symmetry; apply Z.leb_le; lia).
  rewrite append_empty_r.
  replace (Z.to_nat (- (- Z.of_nat e + Z.of_nat (List.length ds)))) with (e - List.length ds)%nat
    by lia.
  cbn [app]. now destruct neg.
Qed.

(** [str(d)] gives a plain literal back. *)
Lemma to_string_plain neg ip fp :
  no_leading_zero ip = true -> printed_plain ip fp = true ->
  decimal.to_string
    (decimal.Finite neg (string_of_list_ascii (coefficient ip fp))
       (- Z.of_nat (List.length fp)))
  = plain_literal neg ip fp.
Proof.
  intros Hz Hp. unfold plain_literal, coefficient in *.
  destruct ip as [| c r]; [discriminate |].
  destruct (Ascii.eqb "0" c) eqn:Ec.
  - apply Ascii.eqb_eq in Ec. subst c.
    destruct r as [| c2 r2]; [| discriminate].
    cbn [app] in *. rewrite canonical_digits_zero in *.
    destruct fp as [| f fp'].
    + apply (to_string_point_inside neg ["0"%char] []). discriminate.
    + destruct (canonical_digits_padding (f :: fp') ltac:(discriminate)) as [Hpad Hlen].
      unfold printed_plain, coefficient in Hp. cbn [app] in Hp.
      rewrite canonical_digits_zero in Hp. apply Z.ltb_lt in Hp.
      rewrite to_string_point_before by lia.
      now rewrite Hpad.
  - cbn [app]. rewrite (canonical_digits_nonzero _ _ Ec).
    apply (to_string_point_inside neg (c :: r) fp). discriminate.
Qed.

End decimal_facts.

(* ================================================================== *)
(** ** Maps from symbol to collection *)

Module symbol_map_facts.
Import text py pydantic props pydantic_facts.
Local Open Scope list_scope.

Section Entries.
Context {A : Type} (value : PyVal -> outcome A).
Hypothesis value_never_raises : never_raises value.

Lemma validate_entries_not_raised d e : validate_entries value d <> Raised e.
Proof.
  revert e. induction d as [| [k x] r IH]; intros e; cbn [validate_entries].
  - discriminate.
  - apply ap_not_raised; [apply ap_not_raised |].
    + apply valid_not_raised.
    + apply at_loc_not_raised. intros e'. apply value_never_raises.
    + exact IH.
Qed.

(** The map is valid exactly when each of its values is. *)
Lemma validate_entries_is_valid d :
  is_valid (validate_entries value d) = forallb (fun kv => is_valid (value (snd kv))) d.
Proof.
  induction d as [| [k x] r IH]; [reflexivity |].
  cbn [validate_entries forallb snd]. rewrite <- IH.
  pose proof (value_never_raises x) as Hx.
  pose proof (validate_entries_not_raised r) as Hr.
  destruct (value x), (validate_entries value r); simpl; try reflexivity;
    solve [exfalso; eapply Hx; reflexivity | exfalso; eapply Hr; reflexivity].
Qed.

(** The error lines of the map are those of its values, each under the
    key of the value it comes from. *)
Lemma validate_entries_errors d :
  errors_of (validate_entries value d)
  = flat_map (fun kv => map (prefix_loc (LocKey (fst kv))) (errors_of (value (snd kv)))) d.
Proof.
  induction d as [| [k x] r IH]; [reflexivity |].
  cbn [validate_entries flat_map fst snd]. rewrite <- IH.
  pose proof (value_never_raises x) as Hx.
  pose proof (validate_entries_not_raised r) as Hr.
  destruct (value x), (validate_entries value r); simpl; try reflexivity;
    try solve [exfalso; eapply Hx; reflexivity | exfalso; eapply Hr; reflexivity].
  now rewrite app_nil_r.
Qed.

(** A valid map keeps every key, in order, with the validated value. *)
Lemma validate_entries_valid d r :
  validate_entries value d = Valid r ->
  Forall2 (fun kv kr => fst kr = fst kv /\ value (snd kv) = Valid (snd kr)) d r.
Proof.
  revert r. induction d as [| [k x] t IH]; intros r; cbn [validate_entries].
  - intros E. injection E as <-. constructor.
  - intros E. apply ap_valid_inv in E as (g & t' & E & Et & ->).
    apply ap_valid_inv in E as (g' & y & E & Ey & ->). injection E as <-.
    apply at_loc_valid_inv in Ey. constructor; [split; [reflexivity | exact Ey] | exact (IH _ Et)].
Qed.

Lemma validate_entries_keys d r :
  validate_entries value d = Valid r -> map fst r = map fst d.
Proof.
  intros E. apply validate_entries_valid in E.
  induction E as [| kv kr d' r' [Hk _] _ IH]; [reflexivity |].
  cbn [map]. now rewrite Hk, IH.
Qed.

(** The map fails exactly when the value of some key fails. *)
Lemma validate_entries_fails_iff d :
  is_valid (validate_entries value d) = false <->
  exists k x, In (k, x) d /\ is_valid (value x) = false.
Proof.
  rewrite validate_entries_is_valid. split.
  - intros Hf. destruct (forallb (fun kv => is_valid (value (snd kv))) d) eqn:E; [discriminate |].
    clear Hf. induction d as [| [k x] r IH]; [discriminate |].
    cbn [forallb snd] in E. destruct (is_valid (value x)) eqn:Ex.
    + destruct (IH E) as (k' & x' & Hin & Hx'). exists k', x'. split; [right; exact Hin | exact Hx'].
    + exists k, x. split; [left; reflexivity | exact Ex].
  - intros (k & x & Hin & Hx).
    destruct (forallb (fun kv => is_valid (value (snd kv))) d) eqn:E; [| reflexivity].
    rewrite forallb_forall in E. specialize (E _ Hin). simpl in E. congruence.
Qed.

(** Each error line of the map starts with the key of a value that
    fails. *)
Lemma validate_entries_error_key d e :
  In e (errors_of (validate_entries value d)) ->
  exists k x rest, In (k, x) d /\ is_valid (value x) = false /\ loc e = LocKey k :: rest.
Proof.
  rewrite validate_entries_errors, in_flat_map. intros ([k x] & Hin & He).
  cbn [fst snd] in He. apply in_map_iff in He as (e0 & <- & He0).
  exists k, x, (loc e0). split; [exact Hin | split; [| reflexivity]].
  destruct (value x); [destruct He0 | reflexivity | destruct He0].
Qed.

End Entries.

Section Instances.
Context `{Runtime}.

Lemma test_OHLCEntry_never_raises : never_raises test_ohcl.OHLCEntry_validate.
Proof.
  intros v. unfold test_ohcl.OHLCEntry_validate, before_validator. cbn [ret].
  apply model_fields_never_raises. intros d. unfold test_ohcl.OHLCEntry_fields.
  repeat apply ap_not_raised; try apply valid_not_raised; apply field_not_raised;
    auto using int_validator_never_raises, decimal_validator_never_raises.
Qed.

Lemma test_OHLC_never_raises : never_raises test_ohcl.OHLC_validate.
Proof.
  apply model_fields_never_raises. intros d.
  repeat apply ap_not_raised; try apply valid_not_raised; apply field_not_raised.
  apply list_validator_never_raises, test_OHLCEntry_never_raises.
Qed.

(** [all_trades_T] fails exactly when the batch of some symbol fails. *)
Lemma all_trades_T_fails_iff d :
  is_valid (trade_schema.all_trades_T (PyDict d)) = false <->
  exists k x, In (k, x) d /\ is_valid (trade_schema.NubitexTrades_validate x) = false.
Proof. apply validate_entries_fails_iff, trade_facts.NubitexTrades_never_raises. Qed.

(** Its error lines are those of the failing batches, each under its
    symbol; the other symbols contribute nothing. *)
Lemma all_trades_T_errors d :
  errors_of (trade_schema.all_trades_T (PyDict d))
  = flat_map (fun kv => map (prefix_loc (LocKey (fst kv)))
                          (errors_of (trade_schema.NubitexTrades_validate (snd kv)))) d.
Proof. apply validate_entries_errors, trade_facts.NubitexTrades_never_raises. Qed.

Lemma all_trades_T_error_key d e :
  In e (errors_of (trade_schema.all_trades_T (PyDict d))) ->
  exists k x rest, In (k, x) d /\
    is_valid (trade_schema.NubitexTrades_validate x) = false /\ loc e = LocKey k :: rest.
Proof. apply validate_entries_error_key, trade_facts.NubitexTrades_never_raises. Qed.

(** A valid map keeps all its keys. *)
Lemma all_trades_T_keys d r :
  trade_schema.all_trades_T (PyDict d) = Valid r -> map fst r = map fst d.
Proof. apply validate_entries_keys. Qed.

(** The adapter of the test module behaves in the same way. *)
Lemma test_all_ohlc_T_fails_iff d :
  is_valid (test_ohcl.all_ohlc_T (PyDict d)) = false <->
  exists k x, In (k, x) d /\ is_valid (test_ohcl.OHLC_validate x) = false.
Proof. apply validate_entries_fails_iff, test_OHLC_never_raises. Qed.

Lemma test_all_ohlc_T_error_key d e :
  In e (errors_of (test_ohcl.all_ohlc_T (PyDict d))) ->
  exists k x rest, In (k, x) d /\
    is_valid (test_ohcl.OHLC_validate x) = false /\ loc e = LocKey k :: rest.
Proof. apply validate_entries_error_key, test_OHLC_never_raises. Qed.

End Instances.

End symbol_map_facts.

(* ================================================================== *)
(** ** The specification, claim by claim *)

Import text py pydantic props pydantic_facts.

Lemma string_app_assoc (a b c : string) : ((a ++ b) ++ c = a ++ (b ++ c))%string.
Proof. induction a as [| x a IH]; [reflexivity |]. simpl. now rewrite IH. Qed.

(** The textual form of an aware date-time is that of the naive one
    followed by the offset. *)
Lemma isoformat_offset dt :
  pydatetime.isoformat dt
  = (pydatetime.isoformat (naive dt) ++ pydatetime.format_offset (pydatetime.utcoffset dt))%string.
Proof.
  unfold pydatetime.isoformat, pydatetime.isoformat_sep, naive, pydatetime.format_time.
  cbn [pydatetime.year pydatetime.month pydatetime.day pydatetime.hour pydatetime.minute
       pydatetime.second pydatetime.microsecond pydatetime.utcoffset pydatetime.format_offset].
  rewrite decimal_facts.append_empty_r. now rewrite !string_app_assoc.
Qed.

Section Claims.
Context `{Runtime}.

(** C1.  The positional and the keyed form of a candle are claimed to
    validate to the same entry.  [OHCLEntry.model_validate] runs
    [validate_high_low] on the raw input first, and reading [self.high]
    on a list or a dict raises [AttributeError]: neither form is
    validated, whatever the six values are. *)
Theorem ohcl_positional_and_keyed_forms_raise t o h l c v :
  ohcl_schema.OHCLEntry_validate (PyList [t; o; h; l; c; v])
  = Raised (AttributeError "list" "high")
  /\ ohcl_schema.OHCLEntry_validate (candle_record t o h l c v)
     = Raised (AttributeError "dict" "high").
Proof. split; reflexivity. Qed.

(** C2.  A candle whose high is below its open is claimed to fail with
    an error of the high/low rule.  On the example of the specification
    [OHCLEntry.model_validate] raises [AttributeError] before any
    comparison, and the model of the test module, which has no such rule,
    accepts the candle with high 90 and open 100. *)
Theorem ohcl_high_below_open_outcome :
  ohcl_schema.OHCLEntry_validate high_below_open = Raised (AttributeError "list" "high")
  /\ test_ohcl.OHLCEntry_validate high_below_open
     = Valid (test_ohcl.mkOHLCEntry 0
                (decimal.Finite false "100" 0) (decimal.Finite false "90" 0)
                (decimal.Finite false "50" 0) (decimal.Finite false "95" 0)
                (decimal.Finite false "1" 0)).
Proof. split; reflexivity. Qed.

(** C3.  A five-element candle is claimed to validate with volume zero.
    [OHCLEntry.model_validate] raises [AttributeError] on it:
    [parse_list], which would add the volume, is not registered with the
    model and the hook that is registered reads attributes of the list. *)
Theorem ohcl_five_elements_raise t o h l c :
  ohcl_schema.OHCLEntry_validate (PyList [t; o; h; l; c])
  = Raised (AttributeError "list" "high")
  /\ ohcl_schema.parse_list (PyList [t; o; h; l; c])
     = candle_record t o h l c (PyDecimal ohcl_schema.Decimal_0).
Proof. split; reflexivity. Qed.

(** C9.  Some candle with negative or zero quantities is claimed to
    validate.  [OHCLEntry.model_validate] raises [AttributeError] on
    every list, every tuple and every dict, so on every candle in
    positional or keyed form, whatever the sign of its quantities: the
    hook reads [self.high] on the raw input.  The model of the test
    module accepts the candle of [test_negative_values_rejected], whose
    quantities are negative or zero and in order. *)
Theorem ohcl_negative_candle_raises :
  (forall l, ohcl_schema.OHCLEntry_validate (PyList l) = Raised (AttributeError "list" "high"))
  /\ (forall l, ohcl_schema.OHCLEntry_validate (PyTuple l)
                = Raised (AttributeError "tuple" "high"))
  /\ (forall d, ohcl_schema.OHCLEntry_validate (PyDict d)
                = Raised (AttributeError "dict" "high"))
  /\ ohcl_schema.OHCLEntry_validate negative_candle = Raised (AttributeError "list" "high")
  /\ test_ohcl.OHLCEntry_validate negative_candle
     = Valid (test_ohcl.mkOHLCEntry 1699000000000
                (decimal.Finite true "5" 0) (decimal.Finite false "0" 0)
                (decimal.Finite true "10" 0) (decimal.Finite true "1" 0)
                (decimal.Finite false "0" 0)).
Proof. repeat split. Qed.

(** C8.  A sequence of fewer than five elements is claimed to be
    returned as it is by the shape normalisation and then to fail with
    its required fields reported missing.  [parse_list] does return it as
    it is, but [OHCLEntry.model_validate] never calls [parse_list] and
    reads no field: the hook that is registered reads [self.high] on the
    raw sequence and [AttributeError] escapes, without any error line.
    In the test module, where [parse_list] is the registered hook, the
    sequence is rejected as a whole by the single line [model_type], and
    no line reports a missing field. *)
Theorem short_sequence_raises l :
  (List.length l < 5)%nat ->
  ohcl_schema.parse_list (PyList l) = PyList l
  /\ ohcl_schema.parse_list (PyTuple l) = PyTuple l
  /\ ohcl_schema.OHCLEntry_validate (PyList l) = Raised (AttributeError "list" "high")
  /\ ohcl_schema.OHCLEntry_validate (PyTuple l) = Raised (AttributeError "tuple" "high")
  /\ test_ohcl.OHLCEntry_validate (PyList l)
     = Invalid [mkError (model_type "OHLCEntry") [] (PyList l)]
  /\ test_ohcl.OHLCEntry_validate (PyTuple l)
     = Invalid [mkError (model_type "OHLCEntry") [] (PyTuple l)].
Proof.
  intros Hlen.
  rewrite (ohcl_facts.parse_list_short l Hlen), (ohcl_facts.parse_list_short_tuple l Hlen).
  unfold test_ohcl.OHLCEntry_validate, before_validator. cbn [ret].
  rewrite (ohcl_facts.test_parse_list_short l Hlen),
    (ohcl_facts.test_parse_list_short_tuple l Hlen).
  repeat split.
Qed.

(** C10.  A keyed candle record with unknown keys is claimed to validate
    like its restriction to the known keys.  [OHCLEntry.model_validate]
    raises [AttributeError] on every dict, with or without the unknown
    keys. *)
Theorem ohcl_record_with_extra_keys_raises d :
  ohcl_schema.OHCLEntry_validate (PyDict d) = Raised (AttributeError "dict" "high")
  /\ ohcl_schema.OHCLEntry_validate (PyDict (restrict candle_fields d))
     = Raised (AttributeError "dict" "high").
Proof. split; reflexivity. Qed.

(** C7.  A map from symbol to candle collection is claimed to fail when
    the collection of some symbol fails.  [all_ohlc_T] is
    [TypeAdapter(Any)]: it returns every input as it is. *)
Theorem all_ohlc_T_accepts_everything v :
  ohcl_schema.all_ohlc_T v = Valid v.
Proof. reflexivity. Qed.

(** C5.  The [type] of a trade is accepted exactly when it is the string
    ["buy"] or the string ["sell"]; the entry then stores that token;
    any other value fails the entry with an error line under [type] that
    carries the value and whose message lists both tokens. *)
Theorem trade_type_buy_or_sell d v :
  lookup "type" d = Some v ->
  (errors_at "type" (errors_of (trade_schema.TradeEntry_validate (PyDict d))) = []
   <-> v = PyStr "buy" \/ v = PyStr "sell")
  /\ (forall e, trade_schema.TradeEntry_validate (PyDict d) = Valid e ->
                v = PyStr (trade_schema.type e))
  /\ (v <> PyStr "buy" -> v <> PyStr "sell" ->
      exists es,
        trade_schema.TradeEntry_validate (PyDict d) = Invalid es /\
        errors_at "type" es = [mkError (literal_error ["buy"; "sell"]) [LocKey "type"] v] /\
        message (literal_error ["buy"; "sell"]) = "Input should be 'buy' or 'sell'").
Proof.
  intros Hv.
  pose proof (trade_facts.TradeEntry_errors_at_type d) as Herr.
  rewrite (field_present _ _ _ _ Hv) in Herr.
  assert (Hvalid : forall e, trade_schema.TradeEntry_validate (PyDict d) = Valid e ->
                             literal_validator ["buy"; "sell"] v = Valid (trade_schema.type e)).
  { intros e E. apply trade_facts.TradeEntry_fields_valid_inv in E as (_ & _ & _ & _ & Ety & _).
    rewrite (field_present _ _ _ _ Hv) in Ety. exact (at_loc_valid_inv _ _ _ Ety). }
  destruct (trade_facts.literal_buy_sell v) as [Hok | [[Hb Hs] Hfail]].
  - split; [| split].
    + rewrite Herr. split; [intros _; exact Hok |].
      intros _. destruct Hok as [-> | ->]; reflexivity.
    + intros e E. specialize (Hvalid e E). destruct Hok as [-> | ->]; simpl in Hvalid; congruence.
    + intros Hb Hs. destruct Hok; contradiction.
  - rewrite Hfail in *. split; [| split].
    + rewrite Herr. split; [discriminate | intros [E | E]; contradiction].
    + intros e E. specialize (Hvalid e E). discriminate.
    + intros _ _.
      destruct (trade_schema.TradeEntry_validate (PyDict d)) as [e | es | x] eqn:E.
      * specialize (Hvalid e eq_refl). discriminate.
      * exists es. split; [reflexivity | split; [exact Herr | reflexivity]].
      * destruct (trade_facts.TradeEntry_never_raises _ _ E).
Qed.

End Claims.

(* ================================================================== *)
(** ** Concrete runs *)

(** [test_from_list_format] and [test_from_dict_format] *)
Example test_from_list_format :
  @test_ohcl.OHLCEntry_validate sample.runtime
    (PyList [PyInt 1699000000000; PyStr "50000.5"; PyStr "51000.0"; PyStr "49500.0";
             PyStr "50500.0"; PyStr "100.5"])
  = Valid (test_ohcl.mkOHLCEntry 1699000000000
             (decimal.Finite false "500005" (-1)) (decimal.Finite false "510000" (-1))
             (decimal.Finite false "495000" (-1)) (decimal.Finite false "505000" (-1))
             (decimal.Finite false "1005" (-1))).
Proof. reflexivity. Qed.

(** [test_string_numbers] *)
Example test_string_numbers :
  option_map test_ohcl.timestamp
    (match @test_ohcl.OHLCEntry_validate sample.runtime
             (PyList [PyStr "1699000000000"; PyStr "50000.5"; PyStr "51000.0";
                      PyStr "49500.0"; PyStr "50500.0"; PyStr "100.5"])
     with Valid e => Some e | _ => None end)
  = Some 1699000000000.
Proof. reflexivity. Qed.

(** [test_preserves_decimal_precision] *)
Example test_preserves_decimal_precision :
  match @trade_schema.TradeEntry_validate sample.runtime
          (PyDict (sample_trade (PyStr "buy") (PyStr "2024-01-01T10:00:00+00:00")))
  with
  | Valid e => (decimal.to_string (trade_schema.price e),
                decimal.to_string (trade_schema.amount e))
  | _ => ("", "")
  end = ("50000.123456789", "0.987654321").
Proof. reflexivity. Qed.

(** The tokens of [type] are case-sensitive. *)
Example type_is_case_sensitive :
  @trade_schema.TradeEntry_validate sample.runtime
    (PyDict (sample_trade (PyStr "Buy") (PyStr "2024-01-01T10:00:00+00:00")))
  = Invalid [mkError (literal_error ["buy"; "sell"]) [LocKey "type"] (PyStr "Buy")].
Proof. reflexivity. Qed.

(** An aware date-time given as [timestamp]. *)
Example timestamp_from_datetime :
  @trade_schema.validate_timestamp sample.runtime
    (PyDatetime (pydatetime.mkDatetime 2018 11 18 11 56 7 798845 (Some 0)))
  = ret "2018-11-18T11:56:07.798845+00:00".
Proof. reflexivity. Qed.

(** [validate_high_low] on an object that has the four attributes: the
    comparison is reached and the rule is reported. *)
Example validate_high_low_on_object :
  @ohcl_schema.validate_high_low sample.runtime
    (PyObj "SimpleNamespace"
       [("open", PyDecimal (decimal.Finite false "100" 0));
        ("high", PyDecimal (decimal.Finite false "90" 0));
        ("low", PyDecimal (decimal.Finite false "50" 0));
        ("close", PyDecimal (decimal.Finite false "95" 0))])
  = raise (ValueError "High must be >= max(open, close)").
Proof. reflexivity. Qed.

Example all_trades_T_names_the_symbol :
  @trade_schema.all_trades_T sample.runtime
    (PyDict [("BTCUSDT", valid_batch); ("ETHUSDT", invalid_batch)])
  = Invalid [mkError (literal_error ["buy"; "sell"])
               [LocKey "ETHUSDT"; LocKey "trades"; LocIndex 0; LocKey "type"]
               (PyStr "invalid")]
  /\ is_valid (@trade_schema.all_trades_T sample.runtime (PyDict [("BTCUSDT", valid_batch)]))
     = true.
Proof. split; reflexivity. Qed.

(** *** Inputs on which a claim fails as it is stated *)

(** C4 as stated fails on the price ["0.0000001"]: the entry is valid,
    the value is stored exactly and printed as ["1E-7"]. *)
Lemma small_decimal_is_not_verbatim :
  ~ @price_reserializes_verbatim sample.runtime "0.0000001".
Proof.
  intros Hv.
  specialize (Hv small_price_trade
                (trade_schema.mkTradeEntry "SHIB-USDT"
                   (decimal.Finite false "1" (-7)) (decimal.Finite false "1000" 0)
                   (decimal.Finite false "1" (-4)) "buy" "2024-01-01T10:00:00+00:00")
                eq_refl eq_refl).
  discriminate.
Qed.

Example small_decimal_printed :
  decimal.to_string (decimal.Finite false "1" (-7)) = "1E-7".
Proof. reflexivity. Qed.

(** *** The theorems with hypotheses, applied *)

Lemma short_sequence_raises_witness :
  (List.length [PyInt 1; PyInt 2] < 5)%nat /\
  @ohcl_schema.OHCLEntry_validate sample.runtime (PyList [PyInt 1; PyInt 2])
  = Raised (AttributeError "list" "high") /\
  @test_ohcl.OHLCEntry_validate sample.runtime (PyList [PyInt 1; PyInt 2])
  = Invalid [mkError (model_type "OHLCEntry") [] (PyList [PyInt 1; PyInt 2])].
Proof.
  assert (Hlen : (List.length [PyInt 1; PyInt 2] < 5)%nat) by (simpl; lia).
  split; [exact Hlen |].
  destruct (@short_sequence_raises sample.runtime _ Hlen) as (_ & _ & Hraise & _ & Htest & _).
  split; [exact Hraise | exact Htest].
Defined.

Lemma trade_type_buy_or_sell_witness :
  lookup "type" (sample_trade (PyStr "invalid") (PyStr "2024-01-01")) = Some (PyStr "invalid") /\
  exists es,
    @trade_schema.TradeEntry_validate sample.runtime
      (PyDict (sample_trade (PyStr "invalid") (PyStr "2024-01-01"))) = Invalid es /\
    errors_at "type" es
    = [mkError (literal_error ["buy"; "sell"]) [LocKey "type"] (PyStr "invalid")] /\
    message (literal_error ["buy"; "sell"]) = "Input should be 'buy' or 'sell'".
Proof.
  split; [reflexivity |].
  destruct (@trade_type_buy_or_sell sample.runtime
              (sample_trade (PyStr "invalid") (PyStr "2024-01-01")) (PyStr "invalid") eq_refl)
    as (_ & _ & Hrejected).
  apply Hrejected; discriminate.
Defined.

(* ================================================================== *)
(** ** Numbers and their decimal text *)

Module number_text_facts.
Import text py pydantic props.
Local Open Scope list_scope.

Lemma chars_append (a b : string) :
  list_ascii_of_string (a ++ b)%string = list_ascii_of_string a ++ list_ascii_of_string b.
Proof. induction a as [| c a IH]; [reflexivity |]. simpl. now rewrite IH. Qed.

Lemma uint_chars_digits u :
  forallb is_digit (list_ascii_of_string (NilEmpty.string_of_uint u)) = true.
Proof. induction u; simpl; auto. Qed.

Lemma uint_chars_value_acc u acc :
  fold_left (fun a c => (a * 10 + digit_value c)%N)
    (list_ascii_of_string (NilEmpty.string_of_uint u)) (N.pos acc)
  = N.pos (Pos.of_uint_acc u acc).
Proof.
  revert acc. induction u; intros acc; cbn [NilEmpty.string_of_uint list_ascii_of_string fold_left Pos.of_uint_acc];
    try reflexivity;
    match goal with
    | |- fold_left _ _ ?x = N.pos (Pos.of_uint_acc _ ?y) =>
        replace x with (N.pos y)
          by (match goal with
              | |- context [digit_value ?c] =>
                  let k := eval vm_compute in (digit_value c) in
                  change (digit_value c) with k
              end; lia)
    end; apply IHu.
Qed.

Lemma uint_chars_value u :
  digits_to_N (list_ascii_of_string (NilEmpty.string_of_uint u)) = N.of_uint u.
Proof.
  unfold digits_to_N, N.of_uint.
  induction u; cbn [NilEmpty.string_of_uint list_ascii_of_string fold_left Pos.of_uint];
    try reflexivity; try exact IHu;
    match goal with
    | |- fold_left _ _ ?x = N.pos (Pos.of_uint_acc _ ?y) =>
        change x with (N.pos y)
    end; apply uint_chars_value_acc.
Qed.

Lemma N_to_string_chars n :
  list_ascii_of_string (N_to_string n)
  = list_ascii_of_string (NilEmpty.string_of_uint (N.to_uint n)).
Proof.
  unfold N_to_string, NilZero.string_of_uint.
  destruct (N.to_uint n) eqn:E; try reflexivity.
  destruct n; [discriminate |]. destruct (DecimalPos.Unsigned.to_uint_nonnil _ E).
Qed.

(** The decimal text of a number is made of digits and reads back as the
    number. *)
Lemma N_to_string_digits n :
  forallb is_digit (list_ascii_of_string (N_to_string n)) = true.
Proof. rewrite N_to_string_chars. apply uint_chars_digits. Qed.

Lemma N_to_string_value n :
  digits_to_N (list_ascii_of_string (N_to_string n)) = n.
Proof. rewrite N_to_string_chars, uint_chars_value. apply DecimalN.Unsigned.of_to. Qed.

Lemma N_to_string_nonempty n : list_ascii_of_string (N_to_string n) <> [].
Proof.
  rewrite N_to_string_chars. destruct n as [| p]; [discriminate |].
  cbn [N.to_uint]. pose proof (DecimalPos.Unsigned.to_uint_nonnil p) as Hp.
  destruct (Pos.to_uint p); try discriminate. congruence.
Qed.

Lemma nzhead_head u :
  match Decimal.nzhead u with Decimal.D0 _ => False | _ => True end.
Proof. induction u; simpl; auto. Qed.

(** It has no redundant leading zero. *)
Lemma N_to_string_canonical n :
  canonical_digits (list_ascii_of_string (N_to_string n))
  = list_ascii_of_string (N_to_string n).
Proof.
  rewrite N_to_string_chars.
  pose proof (DecimalN.Unsigned.to_of (N.to_uint n)) as E.
  rewrite DecimalN.Unsigned.of_to in E. rewrite E. unfold Decimal.unorm.
  pose proof (nzhead_head (N.to_uint n)) as Hh.
  destruct (Decimal.nzhead (N.to_uint n)); try reflexivity. destruct Hh.
Qed.

End number_text_facts.

(* ================================================================== *)
(** ** Printing a decimal and reading it back *)

Module decimal_roundtrip_facts.
Import text py pydantic props decimal_facts number_text_facts.
Local Open Scope list_scope.

Lemma scientific_char_not_space c : scientific_char c = true -> is_space c = false.
Proof. by_cases_on_char c. Qed.

Lemma scientific_char_not_underscore c :
  scientific_char c = true -> negb (Ascii.eqb c "_") = true.
Proof. by_cases_on_char c. Qed.

Lemma digit_is_scientific_char c : is_digit c = true -> scientific_char c = true.
Proof. by_cases_on_char c. Qed.

Lemma digits_are_scientific ds :
  forallb is_digit ds = true -> forallb scientific_char ds = true.
Proof. apply forallb_weaken, digit_is_scientific_char. Qed.

Lemma span_spec p l a b :
  span p l = (a, b) -> forallb p a = true /\ l = a ++ b.
Proof.
  revert a b. induction l as [| c r IH]; intros a b; simpl.
  - intros E. injection E as <- <-. auto.
  - destruct (p c) eqn:Ec.
    + destruct (span p r) as [a' b'] eqn:Er. intros E. injection E as <- <-.
      destruct (IH _ _ eq_refl) as [Ha ->]. simpl. rewrite Ec, Ha. auto.
    + intros E. injection E as <- <-. auto.
Qed.

Lemma drop_while_zeros k ds :
  drop_while (Ascii.eqb "0") (zeros k ++ ds) = drop_while (Ascii.eqb "0") ds.
Proof. induction k as [| k IH]; [reflexivity | exact IH]. Qed.

Lemma canonical_digits_zeros k ds : canonical_digits (zeros k ++ ds) = canonical_digits ds.
Proof. unfold canonical_digits. now rewrite drop_while_zeros. Qed.

Lemma drop_while_suffix_digits p ds :
  forallb is_digit ds = true -> forallb is_digit (drop_while p ds) = true.
Proof.
  induction ds as [| c r IH]; [reflexivity |]. intros Hd. simpl.
  destruct (p c); [| exact Hd]. apply IH. simpl in Hd. now apply andb_true_iff in Hd.
Qed.

Lemma drop_while_idem p ds : drop_while p (drop_while p ds) = drop_while p ds.
Proof.
  induction ds as [| c r IH]; [reflexivity |]. simpl.
  destruct (p c) eqn:Ec; [exact IH |]. simpl. now rewrite Ec.
Qed.

(** What [canonical_digits] returns is canonical. *)
Lemma canonical_digits_canonical ds :
  forallb is_digit ds = true -> canonical_chars (canonical_digits ds).
Proof.
  intros Hd. unfold canonical_chars, canonical_digits.
  destruct (drop_while (Ascii.eqb "0") ds) as [| c r] eqn:E; [split; reflexivity |].
  split.
  - rewrite <- E. now apply drop_while_suffix_digits.
  - rewrite <- E, drop_while_idem, E. reflexivity.
Qed.

Lemma zeros_digits k : forallb is_digit (zeros k) = true.
Proof. induction k; simpl; auto. Qed.

Lemma zeros_length k : List.length (zeros k) = k.
Proof. apply repeat_length. Qed.

(** The exponent that [str] prints is read back. *)
Lemma parse_exponent_format z :
  decimal.parse_exponent (list_ascii_of_string (format_plus_d z)) = Some z.
Proof.
  unfold decimal.parse_exponent, format_plus_d. rewrite chars_append.
  pose proof (N_to_string_digits (Z.abs_N z)) as Hd.
  pose proof (N_to_string_nonempty (Z.abs_N z)) as Hne.
  pose proof (N_to_string_value (Z.abs_N z)) as Hv.
  set (ds := list_ascii_of_string (N_to_string (Z.abs_N z))) in *.
  assert (Hspan : span is_digit ds = (ds, [])).
  { rewrite <- (app_nil_r ds) at 1. now apply span_digits. }
  destruct (Z.ltb_spec z 0) as [Hneg | Hpos]; cbn [list_ascii_of_string app split_sign];
    rewrite Hspan; destruct ds as [| c r]; try congruence; rewrite Hv; f_equal; lia.
Qed.

Lemma layout_chars neg ip fp z :
  list_ascii_of_string (layout neg ip fp z)
  = (if neg : bool then ["-"%char] else []) ++ ip ++
    match fp with [] => [] | _ => "."%char :: fp end ++
    (if z =? 0 then [] else "E"%char :: list_ascii_of_string (format_plus_d z)).
Proof.
  unfold layout. rewrite !chars_append, list_ascii_of_string_of_list_ascii.
  rewrite <- app_assoc. destruct neg, (z =? 0); reflexivity.
Qed.

Lemma format_plus_d_chars z :
  forallb scientific_char (list_ascii_of_string (format_plus_d z)) = true.
Proof.
  unfold format_plus_d. rewrite chars_append, forallb_app.
  rewrite (digits_are_scientific _ (N_to_string_digits _)).
  now destruct (z <? 0).
Qed.

Lemma layout_scientific_chars neg ip fp z :
  forallb is_digit ip = true -> forallb is_digit fp = true ->
  forallb scientific_char (list_ascii_of_string (layout neg ip fp z)) = true.
Proof.
  intros Hip Hfp. rewrite layout_chars, !forallb_app.
  rewrite (digits_are_scientific _ Hip).
  replace (forallb scientific_char (if neg then ["-"%char] else [])) with true
    by now destruct neg.
  replace (forallb scientific_char match fp with [] => [] | _ :: _ => "."%char :: fp end)
    with true
    by (destruct fp; [reflexivity |];
        change (true = forallb scientific_char (a :: fp));
        now rewrite (digits_are_scientific _ Hfp)).
  destruct (z =? 0); [reflexivity |]. cbn [forallb andb].
  rewrite format_plus_d_chars. reflexivity.
Qed.

(** The digits after the sign, with an exponent or without. *)
Lemma parse_finite_layout sign ip fp z :
  forallb is_digit ip = true -> forallb is_digit fp = true -> ip <> [] ->
  decimal.parse_finite sign
    (ip ++ match fp with [] => [] | _ => "."%char :: fp end ++
     (if z =? 0 then [] else "E"%char :: list_ascii_of_string (format_plus_d z)))
  = Some (decimal.Finite sign (string_of_list_ascii (canonical_digits (ip ++ fp)))
            (z - Z.of_nat (List.length fp))).
Proof.
  intros Hip Hfp Hne. destruct (Z.eqb_spec z 0) as [-> | Hz].
  - rewrite app_nil_r, (parse_finite_plain sign ip fp Hip Hfp Hne). reflexivity.
  - unfold decimal.parse_finite.
    pose proof (parse_exponent_format z) as Hexp.
    set (X := list_ascii_of_string (format_plus_d z)) in *.
    rewrite (span_digits ip) by first [assumption | destruct fp; reflexivity].
    destruct ip as [| c ip']; [congruence |].
    assert (Hc : is_digit c = true) by (simpl in Hip; now apply andb_true_iff in Hip).
    cbn [app]. rewrite Hc. cbn [orb].
    destruct fp as [| f fp'].
    + cbn [app lower]. cbv beta iota. cbn [lower]. change (lower "E"%char) with "e"%char.
      cbn [Ascii.eqb Bool.eqb]. rewrite Hexp. reflexivity.
    + cbn [app]. change (f :: fp' ++ "E"%char :: X) with ((f :: fp') ++ "E"%char :: X).
      rewrite (span_digits (f :: fp') ("E"%char :: X)) by first [assumption | reflexivity].
      change (lower "E"%char) with "e"%char. cbn [Ascii.eqb Bool.eqb]. rewrite Hexp. reflexivity.
Qed.

(** [Decimal(s)] reads a text of that layout digit by digit. *)
Lemma of_string_layout neg ip fp z :
  forallb is_digit ip = true -> forallb is_digit fp = true -> ip <> [] ->
  decimal.of_string (layout neg ip fp z)
  = Some (decimal.Finite neg (string_of_list_ascii (canonical_digits (ip ++ fp)))
            (z - Z.of_nat (List.length fp))).
Proof.
  intros Hip Hfp Hne. unfold decimal.of_string.
  pose proof (layout_scientific_chars neg ip fp z Hip Hfp) as Hchars.
  rewrite strip_no_space
    by (revert Hchars; apply forallb_weaken; intros c Hc;
        now rewrite (scientific_char_not_space c Hc)).
  rewrite remove_underscores_none
    by (revert Hchars; apply forallb_weaken; exact scientific_char_not_underscore).
  rewrite layout_chars. destruct neg.
  - cbn [app split_sign]. now rewrite parse_finite_layout.
  - cbn [app]. destruct ip as [| c ip']; [congruence |].
    assert (Hc : is_digit c = true) by (simpl in Hip; now apply andb_true_iff in Hip).
    rewrite <- app_comm_cons, (split_sign_digit _ _ Hc), app_comm_cons.
    now rewrite parse_finite_layout.
Qed.

Lemma canonical_chars_nonempty ds : canonical_chars ds -> ds <> [].
Proof.
  intros [_ Hc] ->. unfold canonical_digits in Hc. simpl in Hc. discriminate.
Qed.

Lemma firstn_skipn_digits k ds :
  forallb is_digit ds = true ->
  forallb is_digit (firstn k ds) = true /\ forallb is_digit (skipn k ds) = true.
Proof.
  intros Hd. rewrite <- (firstn_skipn k ds), forallb_app in Hd.
  now apply andb_true_iff in Hd.
Qed.

(** [str] of a well-formed finite decimal has the layout, with the
    digits of the coefficient and an exponent that add up. *)
Lemma to_string_layout neg ds exp :
  canonical_chars ds ->
  exists ip fp z,
    forallb is_digit ip = true /\ ip <> [] /\ forallb is_digit fp = true /\
    decimal.to_string (decimal.Finite neg (string_of_list_ascii ds) exp) = layout neg ip fp z /\
    canonical_digits (ip ++ fp) = ds /\ z - Z.of_nat (List.length fp) = exp.
Proof.
  intros Hcan. pose proof (canonical_chars_nonempty _ Hcan) as Hne.
  destruct Hcan as [Hd Hc].
  assert (Hlen : (0 < List.length ds)%nat) by (destruct ds; [congruence | simpl; lia]).
  unfold decimal.to_string, layout. rewrite list_ascii_of_string_of_list_ascii. cbv zeta.
  set (n := Z.of_nat (List.length ds)).
  set (dp := if (exp <=? 0) && (-6 <? exp + n) then exp + n else 1).
  assert (Hdp : dp = exp + n /\ exp <= 0 \/ dp = 1).
  { unfold dp. destruct (Z.leb_spec exp 0); [| now right].
    destruct (-6 <? exp + n); [left; split; [reflexivity | assumption] | now right]. }
  destruct (Z.leb_spec dp 0) as [Hle | Hgt].
  - (* the coefficient starts after the point *)
    destruct Hdp as [[Hdp Hexp] | Hdp]; [| lia].
    exists ["0"%char], (zeros (Z.to_nat (- dp)) ++ ds), 0.
    split; [| split; [| split; [| split; [| split]]]].
    + reflexivity.
    + discriminate.
    + now rewrite forallb_app, zeros_digits, Hd.
    + replace (exp + n =? dp) with true by (symmetry; apply Z.eqb_eq; lia).
      cbn [app Z.eqb]. destruct (zeros (Z.to_nat (- dp)) ++ ds) eqn:E; [| reflexivity].
      apply app_eq_nil in E as [_ E]. congruence.
    + cbn [app]. rewrite canonical_digits_zero, canonical_digits_zeros. exact Hc.
    + rewrite length_app, zeros_length. unfold n in *. lia.
  - destruct (Z.leb_spec n dp) as [Hn | Hn].
    + (* no fraction *)
      assert (Hdpn : dp = n) by (unfold n in *; lia).
      exists ds, [], exp.
      split; [| split; [| split; [| split; [| split]]]].
      * exact Hd.
      * exact Hne.
      * reflexivity.
      * rewrite Hdpn, Z.sub_diag. cbn [Z.to_nat zeros repeat]. rewrite !app_nil_r.
        replace (exp + n =? n) with (exp =? 0)
          by (destruct (Z.eqb_spec exp 0), (Z.eqb_spec (exp + n) n); lia || reflexivity).
        replace (exp + n - n) with exp by lia.
        reflexivity.
      * now rewrite app_nil_r.
      * cbn [List.length]. lia.
    + (* the point falls inside the coefficient *)
      exists (firstn (Z.to_nat dp) ds), (skipn (Z.to_nat dp) ds), (exp + n - dp).
      rewrite firstn_skipn, length_skipn.
      split; [| split; [| split; [| split; [| split]]]].
      * now apply firstn_skipn_digits.
      * intros E. apply (f_equal (@List.length ascii)) in E.
        rewrite length_firstn in E. simpl in E. unfold n in *. lia.
      * now apply firstn_skipn_digits.
      * replace (exp + n =? dp) with (exp + n - dp =? 0)
          by (destruct (Z.eqb_spec (exp + n - dp) 0), (Z.eqb_spec (exp + n) dp); lia || reflexivity).
        destruct (skipn (Z.to_nat dp) ds) eqn:E; [| reflexivity].
        apply (f_equal (@List.length ascii)) in E. rewrite length_skipn in E.
        simpl in E. unfold n in *. lia.
      * exact Hc.
      * unfold n in *. lia.
Qed.

(** Reading back what [str] printed gives the decimal itself. *)
Lemma of_string_to_string d :
  decimal.is_finite d = true -> well_formed d ->
  decimal.of_string (decimal.to_string d) = Some d.
Proof.
  destruct d as [neg c exp | |]; try discriminate. intros _ Hwf. simpl in Hwf.
  rewrite <- (string_of_list_ascii_of_string c).
  destruct (to_string_layout neg _ exp Hwf)
    as (ip & fp & z & Hip & Hne & Hfp & -> & Hc & Hz).
  rewrite (of_string_layout neg ip fp z Hip Hfp Hne), Hc, Hz. reflexivity.
Qed.

End decimal_roundtrip_facts.

(* ================================================================== *)
(** ** The order of decimals *)

Module decimal_order_facts.
Import text py pydantic props.

Lemma mul_compare_pos x y p : 0 < p -> (x * p ?= y * p) = (x ?= y).
Proof.
  intros Hp. destruct (Z.compare_spec x y) as [-> | Hlt | Hgt].
  - apply Z.compare_refl.
  - apply Z.compare_lt_iff. nia.
  - apply Z.compare_gt_iff. nia.
Qed.

(** Two finite decimals compare like their counts in any common unit. *)
Lemma compare_scaled e0 a b :
  decimal.is_finite a = true -> decimal.is_finite b = true ->
  e0 <= exponent a -> e0 <= exponent b ->
  decimal.compare a b = Some (scaled e0 a ?= scaled e0 b).
Proof.
  destruct a as [s1 c1 e1 | |], b as [s2 c2 e2 | |]; try discriminate.
  intros _ _ H1 H2. cbn [exponent] in *. cbn [decimal.compare scaled]. unfold decimal.aligned.
  f_equal. set (m := Z.min e1 e2).
  assert (Hm1 : m <= e1) by apply Z.le_min_l.
  assert (Hm2 : m <= e2) by apply Z.le_min_r.
  assert (Hm0 : e0 <= m) by (unfold m; apply Z.min_glb; assumption).
  replace (e1 - e0) with ((e1 - m) + (m - e0)) by lia.
  replace (e2 - e0) with ((e2 - m) + (m - e0)) by lia.
  rewrite !Z.pow_add_r, !Z.mul_assoc by lia.
  symmetry. apply mul_compare_pos. apply Z.pow_pos_nonneg; lia.
Qed.

Lemma dec_lt_scaled e0 a b :
  decimal.is_finite a = true -> decimal.is_finite b = true ->
  e0 <= exponent a -> e0 <= exponent b ->
  dec_lt a b = (scaled e0 a <? scaled e0 b).
Proof.
  intros Ha Hb H1 H2. unfold dec_lt, Z.ltb. rewrite (compare_scaled e0 a b Ha Hb H1 H2).
  reflexivity.
Qed.

Lemma dec_gt_scaled e0 a b :
  decimal.is_finite a = true -> decimal.is_finite b = true ->
  e0 <= exponent a -> e0 <= exponent b ->
  dec_gt a b = (scaled e0 b <? scaled e0 a).
Proof.
  intros Ha Hb H1 H2. unfold dec_gt, Z.ltb. rewrite (compare_scaled e0 a b Ha Hb H1 H2).
  rewrite (Z.compare_antisym (scaled e0 a) (scaled e0 b)).
  now destruct (scaled e0 a ?= scaled e0 b).
Qed.

(** Being below the greater of two values is being below one of them. *)
Lemma dec_lt_max h o c :
  decimal.is_finite h = true -> decimal.is_finite o = true -> decimal.is_finite c = true ->
  dec_lt h (if dec_gt c o then c else o) = dec_lt h o || dec_lt h c.
Proof.
  intros Hh Ho Hc.
  set (e0 := Z.min (exponent h) (Z.min (exponent o) (exponent c))).
  assert (H1 : e0 <= exponent h) by (unfold e0; lia).
  assert (H2 : e0 <= exponent o) by (unfold e0; lia).
  assert (H3 : e0 <= exponent c) by (unfold e0; lia).
  rewrite (dec_gt_scaled e0 c o), (dec_lt_scaled e0 h o), (dec_lt_scaled e0 h c) by assumption.
  destruct (Z.ltb_spec (scaled e0 o) (scaled e0 c));
    [rewrite (dec_lt_scaled e0 h c) by assumption | rewrite (dec_lt_scaled e0 h o) by assumption];
    destruct (Z.ltb_spec (scaled e0 h) (scaled e0 o)), (Z.ltb_spec (scaled e0 h) (scaled e0 c));
    simpl; lia || reflexivity.
Qed.

(** Being above the smaller of two values is being above one of them. *)
Lemma dec_gt_min l o c :
  decimal.is_finite l = true -> decimal.is_finite o = true -> decimal.is_finite c = true ->
  dec_gt l (if dec_lt c o then c else o) = dec_gt l o || dec_gt l c.
Proof.
  intros Hl Ho Hc.
  set (e0 := Z.min (exponent l) (Z.min (exponent o) (exponent c))).
  assert (H1 : e0 <= exponent l) by (unfold e0; lia).
  assert (H2 : e0 <= exponent o) by (unfold e0; lia).
  assert (H3 : e0 <= exponent c) by (unfold e0; lia).
  rewrite (dec_lt_scaled e0 c o), (dec_gt_scaled e0 l o), (dec_gt_scaled e0 l c) by assumption.
  destruct (Z.ltb_spec (scaled e0 c) (scaled e0 o));
    [rewrite (dec_gt_scaled e0 l c) by assumption | rewrite (dec_gt_scaled e0 l o) by assumption];
    destruct (Z.ltb_spec (scaled e0 o) (scaled e0 l)), (Z.ltb_spec (scaled e0 c) (scaled e0 l));
    simpl; lia || reflexivity.
Qed.

End decimal_order_facts.

(* ================================================================== *)
(** ** Sequences of entries *)

Module collection_facts.
Import text py pydantic props pydantic_facts.
Local Open Scope list_scope.

Section Items.
Context {A : Type} (item : PyVal -> outcome A).

(** A valid sequence holds the validated items, one for one and in
    order. *)
Lemma validate_items_valid l : forall i r,
  validate_items item i l = Valid r -> Forall2 (fun x a => item x = Valid a) l r.
Proof.
  induction l as [| x t IH]; intros i r; cbn [validate_items].
  - intros E. injection E as <-. constructor.
  - intros E. apply ap_valid_inv in E as (g & t' & E & Et & ->).
    apply ap_valid_inv in E as (g' & a & E & Ea & ->). injection E as <-.
    constructor; [exact (at_loc_valid_inv _ _ _ Ea) | exact (IH _ _ Et)].
Qed.

Lemma validate_items_complete l r : forall i,
  Forall2 (fun x a => item x = Valid a) l r -> validate_items item i l = Valid r.
Proof.
  intros i F. revert i. induction F as [| x a l' r' Hx _ IH]; intros i; cbn [validate_items].
  - reflexivity.
  - rewrite Hx, IH. reflexivity.
Qed.

Hypothesis item_never_raises : never_raises item.

Lemma validate_items_not_raised l i e : validate_items item i l <> Raised e.
Proof. apply validate_items_never_raises. exact item_never_raises. Qed.

(** The error lines of a sequence are those of its items, each under
    its index. *)
Lemma validate_items_errors l : forall i,
  errors_of (validate_items item i l) = indexed_errors item i l.
Proof.
  induction l as [| x t IH]; intros i; [reflexivity |].
  cbn [validate_items indexed_errors]. rewrite <- IH.
  pose proof (item_never_raises x) as Hx.
  pose proof (validate_items_not_raised t (S i)) as Ht.
  destruct (item x), (validate_items item (S i) t); simpl; try reflexivity;
    try solve [exfalso; eapply Hx; reflexivity | exfalso; eapply Ht; reflexivity].
  now rewrite app_nil_r.
Qed.

(** Each of these lines names the position of an item that fails. *)
Lemma indexed_errors_position l : forall i e,
  In e (indexed_errors item i l) ->
  exists j x rest,
    nth_error l j = Some x /\ is_valid (item x) = false /\ loc e = LocIndex (i + j) :: rest.
Proof.
  induction l as [| x t IH]; intros i e; cbn [indexed_errors]; [intros [] |].
  rewrite in_app_iff. intros [He | He].
  - apply in_map_iff in He as (e0 & <- & He0).
    exists 0%nat, x, (loc e0). rewrite Nat.add_0_r.
    split; [reflexivity | split; [| reflexivity]].
    destruct (item x); [destruct He0 | reflexivity | destruct He0].
  - destruct (IH _ _ He) as (j & y & rest & Hj & Hy & Hloc).
    exists (S j), y, rest. rewrite Nat.add_succ_r. auto.
Qed.

(** A sequence without failing item has no error line. *)
Lemma indexed_errors_none l : forall i,
  Forall (fun x => is_valid (item x) = true) l -> indexed_errors item i l = [].
Proof.
  intros i F. revert i. induction F as [| x t Hx _ IH]; intros i; [reflexivity |].
  cbn [indexed_errors]. rewrite IH. destruct (item x); try discriminate. reflexivity.
Qed.

End Items.

End collection_facts.

(* ================================================================== *)
(** ** What a valid entry holds *)

Module entry_facts.
Import text py pydantic props pydantic_facts decimal_facts number_text_facts
  decimal_roundtrip_facts.
Local Open Scope list_scope.

Lemma parse_finite_well_formed sign l d :
  decimal.parse_finite sign l = Some d -> well_formed d.
Proof.
  unfold decimal.parse_finite.
  destruct (span is_digit l) as [ip r1] eqn:E1.
  destruct (match r1 with "."%char :: r => span is_digit r | _ => ([], r1) end)
    as [fp r2] eqn:E2.
  destruct (match l with
            | c :: r => is_digit c
                        || (Ascii.eqb c "." && match r with d0 :: _ => is_digit d0 | [] => false end)
            | [] => false
            end); [| discriminate].
  destruct (match r2 with
            | [] => Some 0
            | e :: r3 => if Ascii.eqb (lower e) "e" then decimal.parse_exponent r3 else None
            end) as [exp |]; [| discriminate].
  intros E. injection E as <-. cbn [well_formed].
  rewrite list_ascii_of_string_of_list_ascii. apply canonical_digits_canonical.
  rewrite forallb_app. apply andb_true_iff. split.
  - exact (proj1 (span_spec _ _ _ _ E1)).
  - destruct r1 as [| c r]; [injection E2 as <- _; reflexivity |].
    destruct (Ascii.eqb_spec c ".") as [-> | Hc].
    + exact (proj1 (span_spec _ _ _ _ E2)).
    + assert (fp = []) as ->; [| reflexivity].
      revert E2. by_cases_on_char c; try (intros E2; now injection E2 as <- _).
      congruence.
Qed.

(** The [Decimal] constructors build well-formed values. *)
Lemma of_string_well_formed s d : decimal.of_string s = Some d -> well_formed d.
Proof.
  unfold decimal.of_string.
  destruct (split_sign _) as [sign r].
  destruct (decimal.parse_finite sign r) as [d' |] eqn:E.
  - intros E'. injection E' as <-. exact (parse_finite_well_formed _ _ _ E).
  - unfold decimal.parse_special.
    destruct (_ || _); [intros E'; injection E' as <-; exact I |].
    destruct (match r with
              | c :: r' => if Ascii.eqb (lower c) "s" then (true, r') else (false, r)
              | [] => (false, r)
              end) as [sig r'].
    destruct r' as [| n1 [| a [| n2 ds]]]; try discriminate.
    destruct (_ && _); [| discriminate]. intros E'. injection E' as <-. exact I.
Qed.

Lemma of_int_well_formed z : well_formed (decimal.of_int z).
Proof.
  cbn [decimal.of_int well_formed]. split.
  - apply N_to_string_digits.
  - apply N_to_string_canonical.
Qed.

(** A [Decimal] field stores finite values only. *)
Lemma decimal_validator_finite v d :
  decimal_validator v = Valid d -> decimal.is_finite d = true.
Proof.
  unfold decimal_validator. destruct v as [| b | z | s0 | d0 | dt | l | l | en | cls attrs]; try discriminate.
  - intros E. injection E as <-. reflexivity.
  - destruct (decimal.of_string s0) as [d' |]; [| discriminate].
    destruct (decimal.is_finite d') eqn:E; [| discriminate]. congruence.
  - destruct (decimal.is_finite d0) eqn:E; [| discriminate]. congruence.
Qed.

(** What it stores is well formed, provided a [Decimal] given as input
    is. *)
Lemma decimal_validator_well_formed v d :
  decimal_validator v = Valid d ->
  (forall x, v = PyDecimal x -> well_formed x) -> well_formed d.
Proof.
  unfold decimal_validator. destruct v as [| b | z | s0 | d0 | dt | l | l | en | cls attrs]; try discriminate.
  - intros E _. injection E as <-. apply of_int_well_formed.
  - destruct (decimal.of_string s0) as [d' |] eqn:Es; [| discriminate].
    destruct (decimal.is_finite d'); [| discriminate].
    intros E _. injection E as <-. exact (of_string_well_formed _ _ Es).
  - destruct (decimal.is_finite d0); [| discriminate].
    intros E Hwf. injection E as <-. exact (Hwf _ eq_refl).
Qed.

Lemma decimal_validator_instance d :
  decimal.is_finite d = true -> decimal_validator (PyDecimal d) = Valid d.
Proof. intros Hf. unfold decimal_validator. now rewrite Hf. Qed.

(** The text of a stored decimal validates to the decimal itself. *)
Lemma decimal_validator_text d :
  decimal.is_finite d = true -> well_formed d ->
  decimal_validator (PyStr (decimal.to_string d)) = Valid d.
Proof.
  intros Hf Hwf. unfold decimal_validator.
  now rewrite (of_string_to_string d Hf Hwf), Hf.
Qed.

Lemma literal_validator_valid expected v s :
  literal_validator expected v = Valid s ->
  v = PyStr s /\ literal_validator expected (PyStr s) = Valid s.
Proof.
  unfold literal_validator. destruct v as [| b | z | s0 | d0 | dt | l | l | en | cls attrs]; try discriminate.
  destruct (existsb (String.eqb s0) expected) eqn:E; [| discriminate].
  intros E'. injection E' as <-. now rewrite E.
Qed.

Section Entries.
Context `{Runtime}.

Lemma test_OHLCEntry_fields_valid_inv d e :
  test_ohcl.OHLCEntry_fields d = Valid e ->
  field "timestamp" int_validator d = Valid (test_ohcl.timestamp e) /\
  field "open" decimal_validator d = Valid (test_ohcl.open e) /\
  field "high" decimal_validator d = Valid (test_ohcl.high e) /\
  field "low" decimal_validator d = Valid (test_ohcl.low e) /\
  field "close" decimal_validator d = Valid (test_ohcl.close e) /\
  field "volume" decimal_validator d = Valid (test_ohcl.volume e).
Proof.
  unfold test_ohcl.OHLCEntry_fields. intros E.
  apply ap_valid_inv in E as (g6 & vo & E & Evo & ->).
  apply ap_valid_inv in E as (g5 & cl & E & Ecl & ->).
  apply ap_valid_inv in E as (g4 & lo & E & Elo & ->).
  apply ap_valid_inv in E as (g3 & hi & E & Ehi & ->).
  apply ap_valid_inv in E as (g2 & op & E & Eop & ->).
  apply ap_valid_inv in E as (g1 & ts & E & Ets & ->).
  injection E as <-. simpl. auto 10.
Qed.

(** The hook of the test module leaves a dict as it is. *)
Lemma test_OHLCEntry_validate_dict d :
  test_ohcl.OHLCEntry_validate (PyDict d) = test_ohcl.OHLCEntry_fields d.
Proof. reflexivity. Qed.

(** A decimal field of a dict: finite, and well formed when the
    [Decimal] objects of the dict are. *)
Lemma decimal_field_stored name d x :
  field name decimal_validator d = Valid x ->
  decimal.is_finite x = true /\ (decimal_values_well_formed d -> well_formed x).
Proof.
  intros E. apply field_valid_inv in E as (v & Hv & E). split.
  - exact (decimal_validator_finite _ _ E).
  - intros Hwf. apply (decimal_validator_well_formed _ _ E).
    intros y ->. exact (Hwf _ _ Hv).
Qed.

End Entries.

End entry_facts.

(* ================================================================== *)
(** ** White space around a literal *)

Module strip_facts.
Import text py pydantic props number_text_facts.
Local Open Scope list_scope.

Lemma drop_while_spaces ws l :
  forallb is_space ws = true -> drop_while is_space (ws ++ l) = drop_while is_space l.
Proof.
  induction ws as [| c r IH]; [reflexivity |]. simpl.
  intros Hc. apply andb_true_iff in Hc as [-> Hr]. exact (IH Hr).
Qed.

Lemma forallb_rev (p : ascii -> bool) l : forallb p (rev l) = forallb p l.
Proof.
  induction l as [| c r IH]; [reflexivity |]. simpl.
  rewrite forallb_app, IH. simpl. rewrite andb_true_r. apply andb_comm.
Qed.

Lemma strip_trailing ws l :
  forallb is_space ws = true -> strip (l ++ ws) = strip l.
Proof.
  intros Hws. unfold strip. induction l as [| c r IH].
  - cbn [app]. rewrite <- (app_nil_r ws), (drop_while_spaces ws [] Hws). reflexivity.
  - cbn [app drop_while]. destruct (is_space c); [exact IH |].
    change (c :: r ++ ws) with ((c :: r) ++ ws).
    rewrite rev_app_distr, drop_while_spaces; [reflexivity |].
    now rewrite forallb_rev.
Qed.

(** [strip] removes the white space on both sides. *)
Lemma strip_padding ws1 ws2 l :
  forallb is_space ws1 = true -> forallb is_space ws2 = true ->
  strip (ws1 ++ l ++ ws2) = strip l.
Proof.
  intros H1 H2. rewrite app_assoc, (strip_trailing ws2 _ H2).
  unfold strip. now rewrite (drop_while_spaces ws1 l H1).
Qed.

End strip_facts.

(* ================================================================== *)
(** ** Numerals in all their spellings *)

Module numeral_facts.
Import text py pydantic props decimal_facts number_text_facts decimal_roundtrip_facts
  strip_facts.
Local Open Scope list_scope.

Lemma numeral_char_not_space c : numeral_char c = true -> is_space c = false.
Proof. by_cases_on_char c. Qed.

Lemma numeral_char_not_underscore c :
  numeral_char c = true -> negb (Ascii.eqb c "_") = true.
Proof. by_cases_on_char c. Qed.

Lemma digit_is_numeral_char c : is_digit c = true -> numeral_char c = true.
Proof. by_cases_on_char c. Qed.

Lemma digits_are_numeral_chars ds :
  forallb is_digit ds = true -> forallb numeral_char ds = true.
Proof. apply forallb_weaken, digit_is_numeral_char. Qed.

Lemma sign_text_chars m : forallb numeral_char (sign_text m) = true.
Proof. now destruct m. Qed.

Lemma exponent_text_chars x :
  exponent_written x = true -> forallb numeral_char (exponent_text x) = true.
Proof.
  destruct x as [[up m ds] |]; [| reflexivity]. cbn [exponent_written exponent_digits].
  intros Hx. apply andb_true_iff in Hx as [Hd _].
  cbn [exponent_text upper_case exponent_sign exponent_digits forallb].
  rewrite forallb_app, sign_text_chars, (digits_are_numeral_chars _ Hd).
  now destruct up.
Qed.

(** The digits of an exponent part, read after its letter. *)
Lemma parse_exponent_written p :
  exponent_written (Some p) = true ->
  decimal.parse_exponent (sign_text (exponent_sign p) ++ exponent_digits p)
  = Some (exponent_value (Some p)).
Proof.
  destruct p as [up m ds]. cbn [exponent_written exponent_sign exponent_digits exponent_value].
  intros Hx. apply andb_true_iff in Hx as [Hd Hne].
  destruct ds as [| c r]; [discriminate |].
  assert (Hc : is_digit c = true) by (simpl in Hd; now apply andb_true_iff in Hd).
  assert (Hspan : span is_digit (c :: r) = (c :: r, [])).
  { rewrite <- (app_nil_r (c :: r)) at 1. now apply span_digits. }
  unfold decimal.parse_exponent.
  destruct m; cbn [sign_text app is_minus].
  - rewrite (split_sign_digit _ _ Hc), Hspan. reflexivity.
  - cbn [split_sign]. rewrite Hspan. reflexivity.
  - cbn [split_sign]. rewrite Hspan. reflexivity.
Qed.

Lemma exponent_text_head x :
  match exponent_text x with [] => True | c :: _ => is_digit c = false end.
Proof. destruct x as [[[] m ds] |]; cbn; auto. Qed.

(** What follows the digits of the fraction is read as the exponent. *)
Lemma exponent_text_parsed x :
  exponent_written x = true ->
  match exponent_text x with
  | [] => Some 0
  | e :: r3 => if Ascii.eqb (lower e) "e" then decimal.parse_exponent r3 else None
  end = Some (exponent_value x).
Proof.
  destruct x as [p |]; [| reflexivity]. intros Hx.
  pose proof (parse_exponent_written p Hx) as E.
  destruct p as [[] m ds]; cbn [exponent_text upper_case exponent_sign exponent_digits] in *;
    [change (lower "E"%char) with "e"%char | change (lower "e"%char) with "e"%char];
    cbn [Ascii.eqb Bool.eqb]; exact E.
Qed.

(** The digits after the sign, in every spelling. *)
Lemma parse_finite_numeral sign ip fp x :
  forallb is_digit ip = true -> forallb is_digit fp = true -> ip ++ fp <> [] ->
  exponent_written x = true ->
  decimal.parse_finite sign
    (ip ++ match fp with [] => [] | _ => "."%char :: fp end ++ exponent_text x)
  = Some (decimal.Finite sign (string_of_list_ascii (coefficient ip fp))
            (exponent_value x - Z.of_nat (List.length fp))).
Proof.
  intros Hip Hfp Hne Hx. unfold decimal.parse_finite, coefficient.
  pose proof (exponent_text_head x) as Hhead.
  pose proof (exponent_text_parsed x Hx) as Hexp.
  set (X := exponent_text x) in *.
  rewrite (span_digits ip)
    by first [assumption | destruct fp; [exact Hhead | reflexivity]].
  destruct fp as [| f fp'].
  - (* no fraction: the integer part is not empty *)
    rewrite app_nil_r in Hne. destruct ip as [| c ip']; [congruence |].
    assert (Hc : is_digit c = true) by (simpl in Hip; now apply andb_true_iff in Hip).
    cbn [app]. rewrite Hc. cbn [orb].
    replace (match X with "."%char :: r => span is_digit r | _ => ([], X) end)
      with (@nil ascii, X).
    + rewrite Hexp. cbn [List.length Z.of_nat]. now rewrite app_nil_r.
    + destruct X as [| e r]; [reflexivity |].
      revert Hexp. by_cases_on_char e.
  - cbn [app]. change (f :: fp' ++ X) with ((f :: fp') ++ X).
    rewrite (span_digits (f :: fp') X) by assumption.
    assert (Hf : is_digit f = true) by (simpl in Hfp; now apply andb_true_iff in Hfp).
    replace (match ip ++ "."%char :: (f :: fp') ++ X with
             | [] => false
             | c :: r => is_digit c || Ascii.eqb c "." && match r with d :: _ => is_digit d | [] => false end
             end) with true.
    + now rewrite Hexp.
    + destruct ip as [| c ip'].
      * cbn [app]. cbn. now rewrite Hf.
      * cbn [app]. simpl in Hip. apply andb_true_iff in Hip as [-> _]. reflexivity.
Qed.

Lemma numeral_chars w1 m ip fp x w2 :
  list_ascii_of_string (numeral w1 m ip fp x w2)
  = list_ascii_of_string w1 ++
    (sign_text m ++ ip ++ match fp with [] => [] | _ => "."%char :: fp end ++ exponent_text x) ++
    list_ascii_of_string w2.
Proof.
  unfold numeral. now rewrite !chars_append, list_ascii_of_string_of_list_ascii.
Qed.

(** [Decimal(s)] reads a numeral digit by digit, whatever its spelling. *)
Lemma of_string_numeral w1 m ip fp x w2 :
  forallb is_digit ip = true -> forallb is_digit fp = true -> ip ++ fp <> [] ->
  exponent_written x = true -> blank w1 = true -> blank w2 = true ->
  decimal.of_string (numeral w1 m ip fp x w2)
  = Some (decimal.Finite (is_minus m) (string_of_list_ascii (coefficient ip fp))
            (exponent_value x - Z.of_nat (List.length fp))).
Proof.
  intros Hip Hfp Hne Hx Hw1 Hw2. unfold decimal.of_string.
  rewrite numeral_chars, (strip_padding _ _ _ Hw1 Hw2).
  set (body := ip ++ match fp with [] => [] | _ => "."%char :: fp end ++ exponent_text x).
  assert (Hpoint : forallb numeral_char match fp with [] => [] | _ => "."%char :: fp end
                   = true).
  { destruct fp as [| f fp']; [reflexivity |].
    change (forallb numeral_char ("."%char :: f :: fp'))
      with (numeral_char "."%char && forallb numeral_char (f :: fp')).
    now rewrite (digits_are_numeral_chars _ Hfp). }
  assert (Hbody : forallb numeral_char body = true).
  { unfold body. now rewrite !forallb_app, (digits_are_numeral_chars _ Hip), Hpoint,
      (exponent_text_chars _ Hx). }
  assert (Hchars : forallb numeral_char (sign_text m ++ body) = true).
  { now rewrite forallb_app, sign_text_chars, Hbody. }
  rewrite strip_no_space
    by (revert Hchars; apply forallb_weaken; intros c Hc;
        now rewrite (numeral_char_not_space c Hc)).
  rewrite remove_underscores_none
    by (revert Hchars; apply forallb_weaken; exact numeral_char_not_underscore).
  assert (Hsplit : split_sign (sign_text m ++ body) = (is_minus m, body)).
  { destruct m; cbn [sign_text app split_sign is_minus]; try reflexivity.
    unfold body. destruct ip as [| c ip'].
    - destruct fp as [| f fp']; [cbn [app] in Hne; congruence | reflexivity].
    - simpl in Hip. apply andb_true_iff in Hip as [Hc _].
      cbn [app]. exact (split_sign_digit _ _ Hc). }
  rewrite Hsplit. unfold body. now rewrite parse_finite_numeral.
Qed.

End numeral_facts.

(* ================================================================== *)
(** ** Error lines of the trade models *)

Module trade_error_facts.
Import text py pydantic props pydantic_facts trade_facts collection_facts.
Local Open Scope list_scope.

(** The error lines of a field start with its name. *)
Lemma field_errors_loc {A} name (val : PyVal -> outcome A) d e :
  In e (errors_of (field name val d)) -> exists rest, loc e = LocKey name :: rest.
Proof.
  unfold field. destruct (lookup name d) as [v |].
  - destruct (val v) as [a | es | x]; simpl; try tauto.
    intros He. apply in_map_iff in He as (e0 & <- & _). now exists (loc e0).
  - simpl. intros [<- | []]. now exists [].
Qed.

Lemma errors_of_field {A} name (val : PyVal -> outcome A) d :
  errors_of (field name val d)
  = match lookup name d with
    | None => [mkError missing [LocKey name] (PyDict d)]
    | Some v => map (prefix_loc (LocKey name)) (errors_of (val v))
    end.
Proof.
  unfold field. destruct (lookup name d) as [v |]; [| reflexivity].
  now destruct (val v).
Qed.

Section Batches.
Context `{Runtime}.

(** The error lines of a batch: those of [trades], then those of
    [status]. *)
Lemma NubitexTrades_errors d :
  errors_of (trade_schema.NubitexTrades_validate (PyDict d))
  = errors_of (field "trades" (list_validator trade_schema.TradeEntry_validate) d) ++
    errors_of (field "status" str_validator d).
Proof.
  cbn [trade_schema.NubitexTrades_validate model_fields_validator].
  rewrite !errors_of_ap;
    repeat first
      [ apply valid_not_raised
      | apply ap_not_raised
      | apply field_not_raised;
        auto using str_validator_never_raises, list_validator_never_raises,
          TradeEntry_never_raises ].
  reflexivity.
Qed.

End Batches.

End trade_error_facts.

(* ================================================================== *)
(** ** The text of a timestamp *)

Module timestamp_facts.
Import text py pydantic props pydantic_facts trade_facts trade_error_facts number_text_facts.
Local Open Scope list_scope.





Section Timestamps.
Context `{Runtime}.




End Timestamps.

End timestamp_facts.

(* ================================================================== *)
(** ** The specification: what is stored for a text *)

Section StoredText.
Context `{Runtime}.
Import decimal_facts number_text_facts decimal_roundtrip_facts entry_facts strip_facts
  numeral_facts trade_facts trade_error_facts timestamp_facts.


(** C4, as amended.  A decimal numeral given as a string, in whatever
    spelling (white space around, a sign, leading zeros, a bare leading
    point, an exponent in either case, within the limits of [Decimal]),
    is stored digit for digit: the sign as written, the digits of the
    integer and the fraction part as the coefficient, the written
    exponent less the number of fraction digits as the exponent; the
    stored value compares equal to the decimal as written.  [str] of the
    stored value is the numeral itself when the numeral is plain and
    canonical (no white space, no plus sign, no exponent, no redundant
    leading zero, printed without an exponent); for every string the
    field accepts it is a text that validates back to the stored value.
    So for the [price], [amount] and [total] of a trade entry and for
    the five decimal fields of a candle of the test module, given as a
    list, a tuple or a record. *)
Theorem decimal_numeral_stored_exactly w1 m ip fp x w2 :
  forallb is_digit ip = true -> forallb is_digit fp = true -> (ip ++ fp)%list <> [] ->
  exponent_written x = true -> within_decimal_limits ip fp x = true ->
  blank w1 = true -> blank w2 = true ->
  let s := numeral w1 m ip fp x w2 in
  let stored := decimal.Finite (is_minus m) (string_of_list_ascii (coefficient ip fp))
                  (exponent_value x - Z.of_nat (List.length fp)) in
  let written := decimal.Finite (is_minus m) (string_of_list_ascii (ip ++ fp)%list)
                   (exponent_value x - Z.of_nat (List.length fp)) in
  decimal_validator (PyStr s) = Valid stored
  /\ digits_to_N (coefficient ip fp) = digits_to_N (ip ++ fp)%list
  /\ decimal.compare stored written = Some Eq
  /\ (w1 = "" -> w2 = "" -> m <> plus_sign -> x = None ->
      no_leading_zero ip = true -> printed_plain ip fp = true ->
      decimal.to_string stored = s)
  /\ (forall s' d', decimal_validator (PyStr s') = Valid d' ->
        decimal.is_finite d' = true /\
        decimal_validator (PyStr (decimal.to_string d')) = Valid d')
  /\ (forall d e, trade_schema.TradeEntry_validate (PyDict d) = Valid e ->
        (lookup "price" d = Some (PyStr s) -> trade_schema.price e = stored) /\
        (lookup "amount" d = Some (PyStr s) -> trade_schema.amount e = stored) /\
        (lookup "total" d = Some (PyStr s) -> trade_schema.total e = stored))
  /\ (forall v d e,
        test_ohcl.parse_list v = PyDict d -> test_ohcl.OHLCEntry_validate v = Valid e ->
        (lookup "open" d = Some (PyStr s) -> test_ohcl.open e = stored) /\
        (lookup "high" d = Some (PyStr s) -> test_ohcl.high e = stored) /\
        (lookup "low" d = Some (PyStr s) -> test_ohcl.low e = stored) /\
        (lookup "close" d = Some (PyStr s) -> test_ohcl.close e = stored) /\
        (lookup "volume" d = Some (PyStr s) -> test_ohcl.volume e = stored)).
Proof.
  intros Hip Hfp Hne Hx _ Hw1 Hw2 s stored written.
  assert (Hval : decimal_validator (PyStr s) = Valid stored).
  { unfold decimal_validator, s.
    now rewrite (of_string_numeral w1 m ip fp x w2 Hip Hfp Hne Hx Hw1 Hw2). }
  assert (Hfield : forall name d y,
             field name decimal_validator d = Valid y ->
             lookup name d = Some (PyStr s) -> y = stored).
  { intros name d y E Hl. rewrite (field_present _ _ _ _ Hl), Hval in E.
    simpl in E. congruence. }
  split; [exact Hval | split; [apply digits_to_N_canonical | split; [| split; [| split; [| split]]]]].
  - unfold stored, written. cbn [decimal.compare]. unfold decimal.aligned, decimal.signed_coeff.
    rewrite !list_ascii_of_string_of_list_ascii. unfold coefficient.
    rewrite digits_to_N_canonical. now rewrite Z.compare_refl.
  - intros -> -> Hm -> Hz Hp. unfold s, stored, numeral.
    cbn [exponent_text exponent_value]. rewrite Z.sub_0_l, (to_string_plain _ ip fp Hz Hp).
    unfold plain_literal. rewrite append_empty_r, app_nil_r.
    destruct m; [reflexivity | congruence | reflexivity].
  - intros s' d' E.
    pose proof (decimal_validator_finite _ _ E) as Hf.
    split; [exact Hf |]. apply (decimal_validator_text d' Hf).
    apply (decimal_validator_well_formed _ _ E). discriminate.
  - intros d e E.
    apply TradeEntry_fields_valid_inv in E as (_ & Epr & Eam & Eto & _).
    repeat split; eapply Hfield; eassumption.
  - intros v d e Hv E.
    unfold test_ohcl.OHLCEntry_validate, before_validator in E. cbn [ret] in E.
    rewrite Hv in E. cbn [model_fields_validator] in E.
    apply test_OHLCEntry_fields_valid_inv in E as (_ & Eop & Ehi & Elo & Ecl & Evo).
    repeat split; eapply Hfield; eassumption.
Qed.

End StoredText.

(** *** The theorems on stored text, applied *)


Lemma decimal_numeral_stored_exactly_witness :
  decimal_validator (PyStr "50000.123456789")
  = Valid (decimal.Finite false "50000123456789" (-9)) /\
  decimal.to_string (decimal.Finite false "50000123456789" (-9)) = "50000.123456789".
Proof.
  destruct (@decimal_numeral_stored_exactly sample.runtime
              "" no_sign (list_ascii_of_string "50000") (list_ascii_of_string "123456789")
              None "" eq_refl eq_refl ltac:(discriminate) eq_refl eq_refl eq_refl eq_refl)
    as (Hstored & _ & _ & Hprinted & _).
  split; [exact Hstored |].
  apply Hprinted; (reflexivity || discriminate).
Defined.

(** Other spellings of a numeral: what is stored and how it is printed. *)
Example other_spellings_stored :
  map (fun s => match decimal_validator (PyStr s) with
                | Valid d => Some (d, decimal.to_string d)
                | _ => None
                end)
    ["007.50"; "1e5"; "+5"; ".5"; " -1.5E-3 "; "0.0000001"]
  = [Some (decimal.Finite false "750" (-2), "7.50");
     Some (decimal.Finite false "1" 5, "1E+5");
     Some (decimal.Finite false "5" 0, "5");
     Some (decimal.Finite false "5" (-1), "0.5");
     Some (decimal.Finite true "15" (-4), "-0.0015");
     Some (decimal.Finite false "1" (-7), "1E-7")].
Proof. reflexivity. Qed.

(** A date-time with an offset of three hours and a half, and an integer
    of 4301 digits, given as [timestamp]. *)
Example timestamp_of_aware_datetime :
  @trade_schema.TradeEntry_validate sample.runtime
    (PyDict (sample_trade (PyStr "buy") (PyDatetime tehran_time)))
  = Valid (sample_trade_entry "2018-11-18T15:26:07.798845+03:30").
Proof. reflexivity. Qed.

Example timestamp_of_huge_int :
  @trade_schema.TradeEntry_validate sample.runtime
    (PyDict (sample_trade (PyStr "buy") (PyInt huge_int)))
  = Invalid
      [mkError
         (value_error
            "Exceeds the limit (4300 digits) for integer string conversion; use sys.set_int_max_str_digits() to increase the limit")
         [LocKey "timestamp"] (PyInt huge_int)]
  /\ @trade_schema.timestamp_validator sample.runtime (PyInt (huge_int - 1))
     = Valid (string_of_list_ascii (repeat "9"%char 4300)).
Proof. split; vm_compute; reflexivity. Qed.

(* ================================================================== *)
(** ** Further properties of the schemas *)

Import decimal_facts number_text_facts decimal_roundtrip_facts decimal_order_facts
  collection_facts entry_facts strip_facts trade_facts trade_error_facts symbol_map_facts.

Section Extras.
Context `{Runtime}.

(** X1.  [parse_list] is idempotent, in the schema module and in the
    test module: what it returns is a dict or a value it leaves alone, so
    a second pass changes nothing. *)
Theorem parse_list_idempotent v :
  ohcl_schema.parse_list (ohcl_schema.parse_list v) = ohcl_schema.parse_list v
  /\ test_ohcl.parse_list (test_ohcl.parse_list v) = test_ohcl.parse_list v.
Proof.
  assert (Hprod : ohcl_schema.parse_list v = v \/ exists d, ohcl_schema.parse_list v = PyDict d).
  { destruct v as [| b | z | s | x | dt | l | l | e | cls attrs]; auto;
      unfold ohcl_schema.parse_list;
      destruct (6 <=? List.length l)%nat; eauto;
      destruct (List.length l =? 5)%nat; eauto. }
  assert (Htest : test_ohcl.parse_list v = v \/ exists d, test_ohcl.parse_list v = PyDict d).
  { destruct v as [| b | z | s | x | dt | l | l | e | cls attrs]; auto;
      unfold test_ohcl.parse_list;
      destruct (6 <=? List.length l)%nat; eauto;
      destruct (List.length l =? 5)%nat; eauto. }
  split.
  - destruct Hprod as [E | [d E]]; rewrite E; [exact E | reflexivity].
  - destruct Htest as [E | [d E]]; rewrite E; [exact E | reflexivity].
Qed.

(** X2.  On a sequence of six elements or more [parse_list] reads the
    first six only, and a tuple gives what the list of the same elements
    gives: the record of the elements at positions 0 to 5. *)
Theorem parse_list_first_six l :
  (6 <= List.length l)%nat ->
  ohcl_schema.parse_list (PyList l)
  = candle_record (nth 0 l PyNone) (nth 1 l PyNone) (nth 2 l PyNone)
      (nth 3 l PyNone) (nth 4 l PyNone) (nth 5 l PyNone)
  /\ ohcl_schema.parse_list (PyList l) = ohcl_schema.parse_list (PyList (firstn 6 l))
  /\ ohcl_schema.parse_list (PyTuple l) = ohcl_schema.parse_list (PyList l)
  /\ test_ohcl.parse_list (PyList l) = ohcl_schema.parse_list (PyList l)
  /\ test_ohcl.parse_list (PyTuple l) = ohcl_schema.parse_list (PyList l).
Proof.
  intros Hlen.
  destruct l as [| t [| o [| h [| lo [| c [| v rest]]]]]]; simpl in Hlen; try lia.
  repeat split; reflexivity.
Qed.

(** X3.  On an object whose [open], [high], [low] and [close]
    attributes are finite decimals, of whatever class and with whatever
    other attributes, [validate_high_low] returns the object exactly when
    the high is below neither the open nor the close and the low is above
    neither; it reports the high when the high is below one of them, and
    the low only when the high is in order. *)
Theorem validate_high_low_order cls attrs o h l c :
  lookup "open" attrs = Some (PyDecimal o) -> lookup "high" attrs = Some (PyDecimal h) ->
  lookup "low" attrs = Some (PyDecimal l) -> lookup "close" attrs = Some (PyDecimal c) ->
  decimal.is_finite o = true -> decimal.is_finite h = true ->
  decimal.is_finite l = true -> decimal.is_finite c = true ->
  (ohcl_schema.validate_high_low (PyObj cls attrs) = ret (PyObj cls attrs)
   <-> dec_lt h o = false /\ dec_lt h c = false /\ dec_gt l o = false /\ dec_gt l c = false)
  /\ (ohcl_schema.validate_high_low (PyObj cls attrs)
      = raise (ValueError "High must be >= max(open, close)")
      <-> dec_lt h o = true \/ dec_lt h c = true)
  /\ (ohcl_schema.validate_high_low (PyObj cls attrs)
      = raise (ValueError "Low must be <= min(open, close)")
      <-> (dec_lt h o = false /\ dec_lt h c = false) /\
          (dec_gt l o = true \/ dec_gt l c = true)).
Proof.
  intros Eo Eh El Ec Ho Hh Hl Hc.
  rewrite (ohcl_facts.validate_high_low_rule cls attrs o h l c Eo Eh El Ec Ho Hh Hl Hc).
  rewrite (dec_lt_max h o c Hh Ho Hc), (dec_gt_min l o c Hl Ho Hc).
  destruct (dec_lt h o), (dec_lt h c), (dec_gt l o), (dec_gt l c); cbn [orb];
    unfold raise, ret; repeat split; intros; try discriminate; try tauto;
    repeat match goal with
           | H : _ /\ _ |- _ => destruct H
           | H : _ \/ _ |- _ => destruct H
           end; try discriminate; auto.
Qed.

(** X4.  [OHCL.model_validate] on a record: an empty [values] list or
    tuple gives the empty collection, and a list or tuple that starts
    with a value without attributes (a list, a dict, a number, a string,
    [None]) raises [AttributeError], the entry hook being run on the raw
    item. *)
Theorem OHCL_empty_or_raises d :
  (lookup "values" d = Some (PyList []) \/ lookup "values" d = Some (PyTuple []) ->
     ohcl_schema.OHCL_validate (PyDict d) = Valid (ohcl_schema.mkOHCL []))
  /\ (forall x r,
        lookup "values" d = Some (PyList (x :: r)) \/
        lookup "values" d = Some (PyTuple (x :: r)) ->
        (forall cls attrs, x <> PyObj cls attrs) ->
        ohcl_schema.OHCL_validate (PyDict d) = Raised (AttributeError (type_name x) "high")).
Proof.
  unfold ohcl_schema.OHCL_validate. cbn [model_fields_validator]. split.
  - intros [Hd | Hd]; rewrite (field_present _ _ _ _ Hd); reflexivity.
  - intros x r Hd Hx.
    destruct Hd as [Hd | Hd]; rewrite (field_present _ _ _ _ Hd);
      cbn [list_validator validate_items];
      unfold ohcl_schema.OHCLEntry_validate, before_validator;
      rewrite (ohcl_facts.validate_high_low_builtin x Hx); reflexivity.
Qed.

(** X5.  What a [Decimal] field stores reads back from its own text:
    validating [str] of the stored value gives the stored value again,
    also when the text differs from the input (["0.0000001"] is printed
    ["1E-7"]). *)
Theorem decimal_text_reads_back v d :
  decimal_validator v = Valid d ->
  (forall x, v = PyDecimal x -> well_formed x) ->
  decimal_validator (PyStr (decimal.to_string d)) = Valid d.
Proof.
  intros E Hwf. apply decimal_validator_text.
  - exact (decimal_validator_finite _ _ E).
  - exact (decimal_validator_well_formed _ _ E Hwf).
Qed.

(** X6.  An integer given for a [Decimal] field is stored exactly: the
    stored value prints as the decimal text of the integer, and an [int]
    field given that value returns the integer. *)
Theorem integer_as_decimal z :
  decimal_validator (PyInt z) = Valid (decimal.of_int z)
  /\ decimal.to_string (decimal.of_int z) = Z_to_string z
  /\ int_validator (PyDecimal (decimal.of_int z)) = Valid z.
Proof.
  split; [reflexivity | split].
  - unfold decimal.of_int, Z_to_string.
    pose proof (to_string_point_inside (z <? 0) (list_ascii_of_string (N_to_string (Z.abs_N z))) []
                  (N_to_string_nonempty _)) as E.
    rewrite !app_nil_r, string_of_list_ascii_of_string in E.
    cbn [List.length Z.of_nat Z.opp] in E. rewrite E.
    destruct (z <? 0); cbn [app]; [| apply string_of_list_ascii_of_string].
    cbn [string_of_list_ascii]. now rewrite string_of_list_ascii_of_string.
  - cbn [int_validator decimal.of_int decimal.is_finite decimal.as_integer].
    unfold decimal.signed_coeff. rewrite N_to_string_value. cbn [Z.leb Z.compare].
    destruct (Z.ltb_spec z 0); f_equal; lia.
Qed.

(** X7.  White space around a decimal string is ignored: the padded
    text is read as the same value, and a [Decimal] field accepts the
    one exactly when it accepts the other, with the same result. *)
Theorem decimal_padding_ignored w1 w2 s :
  blank w1 = true -> blank w2 = true ->
  decimal.of_string (w1 ++ s ++ w2) = decimal.of_string s
  /\ (forall d, decimal_validator (PyStr (w1 ++ s ++ w2)) = Valid d
                <-> decimal_validator (PyStr s) = Valid d).
Proof.
  intros H1 H2.
  assert (E : decimal.of_string (w1 ++ s ++ w2) = decimal.of_string s).
  { unfold decimal.of_string. rewrite !chars_append. now rewrite strip_padding. }
  split; [exact E |].
  intros d. unfold decimal_validator. rewrite E.
  destruct (decimal.of_string s) as [x |]; [| split; discriminate].
  destruct (decimal.is_finite x); split; intros E'; (discriminate || congruence).
Qed.

(** X8.  A trade record is valid exactly when each of its six fields is
    valid on its own, and the entry holds what each field validator
    returned: no rule relates [price], [amount] and [total]. *)
Theorem trade_entry_valid_iff d e :
  trade_schema.TradeEntry_validate (PyDict d) = Valid e <->
  field "market" str_validator d = Valid (trade_schema.market e) /\
  field "price" decimal_validator d = Valid (trade_schema.price e) /\
  field "amount" decimal_validator d = Valid (trade_schema.amount e) /\
  field "total" decimal_validator d = Valid (trade_schema.total e) /\
  field "type" (literal_validator ["buy"; "sell"]) d = Valid (trade_schema.type e) /\
  field "timestamp" trade_schema.timestamp_validator d = Valid (trade_schema.timestamp e).
Proof.
  split.
  - apply TradeEntry_fields_valid_inv.
  - intros (Hm & Hp & Ha & Ht & Hty & Hts).
    cbn [trade_schema.TradeEntry_validate model_fields_validator].
    unfold trade_schema.TradeEntry_fields. rewrite Hm, Hp, Ha, Ht, Hty, Hts.
    now destruct e.
Qed.

(** X9.  The fields of a trade are judged independently: the error lines
    under a field are one [missing] line carrying the record when the
    key is absent, and otherwise exactly the lines its validator gives
    for its value; every error line of the entry is under one of the six
    fields. *)
Theorem trade_entry_errors_by_field d f :
  In f trade_fields ->
  errors_at f (errors_of (trade_schema.TradeEntry_validate (PyDict d)))
  = match lookup f d with
    | None => [mkError missing [LocKey f] (PyDict d)]
    | Some v => map (prefix_loc (LocKey f)) (trade_value_errors f v)
    end
  /\ (forall e, In e (errors_of (trade_schema.TradeEntry_validate (PyDict d))) ->
        exists g rest, In g trade_fields /\ loc e = LocKey g :: rest).
Proof.
  intros Hf. cbn [trade_schema.TradeEntry_validate model_fields_validator].
  rewrite TradeEntry_fields_errors. split.
  - rewrite !errors_at_app, !errors_at_field.
    destruct Hf as [<- | [<- | [<- | [<- | [<- | [<- | []]]]]]];
      cbn [String.eqb Ascii.eqb Bool.eqb app]; rewrite ?app_nil_r;
      rewrite errors_of_field; reflexivity.
  - intros e He. rewrite !in_app_iff in He.
    destruct He as [He | [He | [He | [He | [He | He]]]]];
      apply field_errors_loc in He as [rest Hloc];
      [exists "market" | exists "price" | exists "amount" | exists "total"
       | exists "type" | exists "timestamp"];
      exists rest; (split; [simpl; tauto | exact Hloc]).
Qed.

(** X10.  What the entry validated from a trade record holds: finite
    [price], [amount] and [total], never a NaN or an infinity, and a
    [type] that is ["buy"] or ["sell"]. *)
Theorem trade_entry_invariants d e :
  trade_schema.TradeEntry_validate (PyDict d) = Valid e ->
  decimal.is_finite (trade_schema.price e) = true
  /\ decimal.is_finite (trade_schema.amount e) = true
  /\ decimal.is_finite (trade_schema.total e) = true
  /\ (trade_schema.type e = "buy" \/ trade_schema.type e = "sell").
Proof.
  intros E.
  apply TradeEntry_fields_valid_inv in E as (_ & Hp & Ha & Ht & Hty & _).
  repeat split; try (eapply decimal_field_stored; eassumption).
  apply field_valid_inv in Hty as (x & _ & Hx).
  destruct (literal_buy_sell x) as [[-> | ->] | [_ Hfail]]; simpl in Hx.
  - left. congruence.
  - right. congruence.
  - rewrite Hfail in Hx. discriminate.
Qed.

(** X11.  The entry validated from a trade record, given back as the
    keyed record of its field values, validates to itself. *)
Theorem trade_entry_record_round_trip d e :
  trade_schema.TradeEntry_validate (PyDict d) = Valid e ->
  trade_schema.TradeEntry_validate (TradeEntry_record e) = Valid e.
Proof.
  intros E.
  apply TradeEntry_fields_valid_inv in E as (_ & Hp & Ha & Ht & Hty & _).
  apply decimal_field_stored in Hp as [Hp _], Ha as [Ha _], Ht as [Ht _].
  apply field_valid_inv in Hty as (x & _ & Hx).
  apply literal_validator_valid in Hx as [_ Hx].
  unfold TradeEntry_record, trade_schema.TradeEntry_validate, model_fields_validator,
    trade_schema.TradeEntry_fields, field.
  cbn [lookup String.eqb Ascii.eqb Bool.eqb].
  rewrite !decimal_validator_instance by assumption. rewrite Hx.
  now destruct e.
Qed.

(** X12.  A valid trade entry survives a round trip through text: the
    record that holds each decimal as [str] prints it validates to the
    same entry, every digit kept. *)
Theorem trade_entry_text_round_trip d e :
  trade_schema.TradeEntry_validate (PyDict d) = Valid e ->
  decimal_values_well_formed d ->
  trade_schema.TradeEntry_validate (TradeEntry_text_record e) = Valid e.
Proof.
  intros E Hwf.
  apply TradeEntry_fields_valid_inv in E as (_ & Hp & Ha & Ht & Hty & _).
  apply decimal_field_stored in Hp as [Hp Hp'], Ha as [Ha Ha'], Ht as [Ht Ht'].
  apply field_valid_inv in Hty as (x & _ & Hx).
  apply literal_validator_valid in Hx as [_ Hx].
  unfold TradeEntry_text_record, trade_schema.TradeEntry_validate, model_fields_validator,
    trade_schema.TradeEntry_fields, field.
  cbn [lookup String.eqb Ascii.eqb Bool.eqb].
  rewrite !decimal_validator_text by auto. rewrite Hx.
  now destruct e.
Qed.

(** X13.  A batch is valid exactly when [trades] is a list or a tuple
    whose items are all valid trades and [status] is a string; the batch
    then holds the validated trades one for one, in the order given, and
    the status as it is. *)
Theorem nubitex_trades_valid_iff d b :
  trade_schema.NubitexTrades_validate (PyDict d) = Valid b <->
  exists l,
    (lookup "trades" d = Some (PyList l) \/ lookup "trades" d = Some (PyTuple l)) /\
    Forall2 (fun x e => trade_schema.TradeEntry_validate x = Valid e) l (trade_schema.trades b) /\
    lookup "status" d = Some (PyStr (trade_schema.status b)).
Proof.
  cbn [trade_schema.NubitexTrades_validate model_fields_validator]. split.
  - intros E.
    apply ap_valid_inv in E as (g2 & st & E & Est & ->).
    apply ap_valid_inv in E as (g1 & ts & E & Ets & ->). injection E as <-.
    cbn [trade_schema.trades trade_schema.status].
    apply field_valid_inv in Ets as (v & Hv & Ev).
    apply field_valid_inv in Est as (w & Hw & Ew).
    destruct w; try discriminate. injection Ew as ->.
    destruct v as [| | | | | | l | l | |]; try discriminate;
      exists l; (split; [auto | split; [exact (validate_items_valid _ _ _ _ Ev) | exact Hw]]).
  - intros (l & Hl & Hall & Hs).
    rewrite (field_present _ _ _ _ Hs).
    assert (Etrades : field "trades" (list_validator trade_schema.TradeEntry_validate) d
                      = Valid (trade_schema.trades b)).
    { destruct Hl as [Hl | Hl]; rewrite (field_present _ _ _ _ Hl);
        cbn [list_validator]; now rewrite (validate_items_complete _ _ _ 0%nat Hall). }
    rewrite Etrades. now destruct b.
Qed.

(** X14.  The error lines of a batch name what fails: the lines under
    [trades] are those of the trades of the list, each under the index
    of the trade it comes from, and every line of the batch is under
    [status] or under the index of a trade that is not valid. *)
Theorem nubitex_trades_error_positions d l :
  lookup "trades" d = Some (PyList l) ->
  errors_at "trades" (errors_of (trade_schema.NubitexTrades_validate (PyDict d)))
  = map (prefix_loc (LocKey "trades")) (indexed_errors trade_schema.TradeEntry_validate 0 l)
  /\ (forall e, In e (errors_of (trade_schema.NubitexTrades_validate (PyDict d))) ->
        (exists rest, loc e = LocKey "status" :: rest) \/
        (exists j x rest,
           nth_error l j = Some x /\
           is_valid (trade_schema.TradeEntry_validate x) = false /\
           loc e = LocKey "trades" :: LocIndex j :: rest)).
Proof.
  intros Hl. rewrite NubitexTrades_errors.
  assert (Etrades : errors_of (field "trades" (list_validator trade_schema.TradeEntry_validate) d)
                    = map (prefix_loc (LocKey "trades"))
                        (indexed_errors trade_schema.TradeEntry_validate 0 l)).
  { rewrite errors_of_field, Hl. cbn [list_validator].
    now rewrite (validate_items_errors _ TradeEntry_never_raises). }
  split.
  - rewrite errors_at_app, !errors_at_field. cbn [String.eqb Ascii.eqb Bool.eqb].
    now rewrite app_nil_r.
  - intros e He. apply in_app_iff in He as [He | He].
    + right. rewrite Etrades in He. apply in_map_iff in He as (e0 & <- & He0).
      destruct (indexed_errors_position _ _ _ _ He0) as (j & x & rest & Hj & Hx & Hloc).
      exists j, x, rest. cbn [prefix_loc loc]. rewrite Hloc. auto.
    + left. exact (field_errors_loc _ _ _ _ He).
Qed.

(** X15.  [all_trades_T] on a map from symbol to batch: it fails exactly
    when the batch of some symbol fails, every error line starts with
    the symbol of a failing batch, a valid map keeps its symbols in
    order, and nothing but a validation error is raised. *)
Theorem all_trades_T_by_symbol d :
  (is_valid (trade_schema.all_trades_T (PyDict d)) = false <->
   exists k x, In (k, x) d /\ is_valid (trade_schema.NubitexTrades_validate x) = false)
  /\ (forall e, In e (errors_of (trade_schema.all_trades_T (PyDict d))) ->
        exists k x rest,
          In (k, x) d /\ is_valid (trade_schema.NubitexTrades_validate x) = false /\
          loc e = LocKey k :: rest)
  /\ (forall r, trade_schema.all_trades_T (PyDict d) = Valid r -> map fst r = map fst d)
  /\ (forall x, trade_schema.all_trades_T (PyDict d) <> Raised x).
Proof.
  pose proof NubitexTrades_never_raises as Hnr.
  split; [| split; [| split]].
  - exact (validate_entries_fails_iff _ Hnr d).
  - intros e. exact (validate_entries_error_key _ Hnr d e).
  - intros r. apply validate_entries_keys.
  - intros x. exact (validate_entries_not_raised _ Hnr d x).
Qed.

(** X16.  In the test module the shape of a candle does not matter: a
    list or a tuple of six elements or more validates like the keyed
    record of its first six elements, and a list of five like the list
    with the string ["0"] added as volume. *)
Theorem test_entry_shapes :
  (forall l, (6 <= List.length l)%nat ->
     test_ohcl.OHLCEntry_validate (PyList l)
     = test_ohcl.OHLCEntry_validate
         (candle_record (nth 0 l PyNone) (nth 1 l PyNone) (nth 2 l PyNone)
            (nth 3 l PyNone) (nth 4 l PyNone) (nth 5 l PyNone))
     /\ test_ohcl.OHLCEntry_validate (PyTuple l) = test_ohcl.OHLCEntry_validate (PyList l))
  /\ (forall t o h lo c,
        test_ohcl.OHLCEntry_validate (PyList [t; o; h; lo; c])
        = test_ohcl.OHLCEntry_validate (PyList [t; o; h; lo; c; PyStr "0"])).
Proof.
  split.
  - intros l Hlen.
    destruct l as [| t [| o [| h [| lo [| c [| v rest]]]]]]; simpl in Hlen; try lia.
    split; reflexivity.
  - reflexivity.
Qed.

(** X17.  In the test module a candle record is valid exactly when each
    of its six fields is valid on its own, and the entry holds what each
    field validator returned: no rule relates the high and the low to
    the open and the close. *)
Theorem test_entry_valid_iff d e :
  test_ohcl.OHLCEntry_validate (PyDict d) = Valid e <->
  field "timestamp" int_validator d = Valid (test_ohcl.timestamp e) /\
  field "open" decimal_validator d = Valid (test_ohcl.open e) /\
  field "high" decimal_validator d = Valid (test_ohcl.high e) /\
  field "low" decimal_validator d = Valid (test_ohcl.low e) /\
  field "close" decimal_validator d = Valid (test_ohcl.close e) /\
  field "volume" decimal_validator d = Valid (test_ohcl.volume e).
Proof.
  rewrite test_OHLCEntry_validate_dict. split.
  - apply test_OHLCEntry_fields_valid_inv.
  - intros (Hts & Ho & Hh & Hl & Hc & Hv).
    unfold test_ohcl.OHLCEntry_fields. rewrite Hts, Ho, Hh, Hl, Hc, Hv.
    now destruct e.
Qed.

(** X18.  In the test module a valid candle survives a round trip
    through text: the record that holds the timestamp and each decimal
    as [str] prints it validates to the same entry. *)
Theorem test_entry_text_round_trip v d e :
  test_ohcl.parse_list v = PyDict d ->
  decimal_values_well_formed d ->
  test_ohcl.OHLCEntry_validate v = Valid e ->
  test_ohcl.OHLCEntry_validate (OHLCEntry_text_record e) = Valid e.
Proof.
  intros Hv Hwf E.
  unfold test_ohcl.OHLCEntry_validate, before_validator in E. cbn [ret] in E.
  rewrite Hv in E. cbn [model_fields_validator] in E.
  apply test_OHLCEntry_fields_valid_inv in E as (_ & Ho & Hh & Hl & Hc & Hvo).
  apply decimal_field_stored in Ho as [Ho Ho'], Hh as [Hh Hh'], Hl as [Hl Hl'],
    Hc as [Hc Hc'], Hvo as [Hvo Hvo'].
  unfold OHLCEntry_text_record, candle_record, test_ohcl.OHLCEntry_validate,
    before_validator. cbn [ret test_ohcl.parse_list model_fields_validator].
  unfold test_ohcl.OHLCEntry_fields, field.
  cbn [lookup String.eqb Ascii.eqb Bool.eqb int_validator at_loc].
  rewrite !decimal_validator_text by auto.
  now destruct e.
Qed.

(** X19.  In the test module a series is valid exactly when [data] is a
    list or a tuple whose items are all valid candles, of whatever
    shape each; it then holds the candles one for one, in the order
    given; and the error lines of a list are those of its items, each
    under [data] and the index of the item. *)
Theorem test_series_valid_iff d :
  (forall s,
     test_ohcl.OHLC_validate (PyDict d) = Valid s <->
     exists l,
       (lookup "data" d = Some (PyList l) \/ lookup "data" d = Some (PyTuple l)) /\
       Forall2 (fun x e => test_ohcl.OHLCEntry_validate x = Valid e) l (test_ohcl.data s))
  /\ (forall l, lookup "data" d = Some (PyList l) ->
        errors_of (test_ohcl.OHLC_validate (PyDict d))
        = map (prefix_loc (LocKey "data")) (indexed_errors test_ohcl.OHLCEntry_validate 0 l)).
Proof.
  cbn [test_ohcl.OHLC_validate model_fields_validator]. split.
  - intros s. split.
    + intros E. apply ap_valid_inv in E as (g & ts & E & Ets & ->). injection E as <-.
      cbn [test_ohcl.data].
      apply field_valid_inv in Ets as (v & Hv & Ev).
      destruct v as [| | | | | | l | l | |]; try discriminate;
        exists l; (split; [auto | exact (validate_items_valid _ _ _ _ Ev)]).
    + intros (l & Hl & Hall).
      assert (Edata : field "data" (list_validator test_ohcl.OHLCEntry_validate) d
                      = Valid (test_ohcl.data s)).
      { destruct Hl as [Hl | Hl]; rewrite (field_present _ _ _ _ Hl);
          cbn [list_validator]; now rewrite (validate_items_complete _ _ _ 0%nat Hall). }
      rewrite Edata. now destruct s.
  - intros l Hl. rewrite errors_of_ap.
    + cbn [errors_of app]. rewrite errors_of_field, Hl. cbn [list_validator].
      now rewrite (validate_items_errors _ test_OHLCEntry_never_raises).
    + apply valid_not_raised.
    + apply field_not_raised, list_validator_never_raises, test_OHLCEntry_never_raises.
Qed.

(** X20.  The adapter [all_ohlc_T] of the test module on a map from
    symbol to series: it fails exactly when the series of some symbol
    fails, every error line starts with the symbol of a failing series,
    and a valid map keeps its symbols in order. *)
Theorem test_all_ohlc_T_by_symbol d :
  (is_valid (test_ohcl.all_ohlc_T (PyDict d)) = false <->
   exists k x, In (k, x) d /\ is_valid (test_ohcl.OHLC_validate x) = false)
  /\ (forall e, In e (errors_of (test_ohcl.all_ohlc_T (PyDict d))) ->
        exists k x rest,
          In (k, x) d /\ is_valid (test_ohcl.OHLC_validate x) = false /\
          loc e = LocKey k :: rest)
  /\ (forall r, test_ohcl.all_ohlc_T (PyDict d) = Valid r -> map fst r = map fst d).
Proof.
  pose proof test_OHLC_never_raises as Hnr.
  split; [| split].
  - exact (validate_entries_fails_iff _ Hnr d).
  - intros e. exact (validate_entries_error_key _ Hnr d e).
  - intros r. apply validate_entries_keys.
Qed.

(** X21.  A date-time whose offset from UTC is a whole number of
    minutes is stored as the text of the naive value followed by the
    sign, the hours and the minutes of the offset, two digits each. *)
Theorem timestamp_offset_text neg hh mm dt :
  (mm < 60)%N -> (neg = true -> (0 < hh * 60 + mm)%N) ->
  pydatetime.utcoffset dt = Some (minute_offset neg hh mm) ->
  trade_schema.validate_timestamp (PyDatetime dt)
  = ret (pydatetime.isoformat (naive dt) ++
         (if neg then "-" else "+") ++ zero_pad 2 hh ++ ":" ++ zero_pad 2 mm)%string.
Proof.
  intros Hmm Hneg Hoff. cbn [trade_schema.validate_timestamp].
  rewrite isoformat_offset, Hoff. f_equal. f_equal.
  unfold pydatetime.format_offset, minute_offset.
  set (a := ((hh * 60 + mm) * 60000000)%N).
  assert (E1 : a = (3600000000 * hh + mm * 60000000)%N) by (unfold a; lia).
  assert (Hlt : (mm * 60000000 < 3600000000)%N) by lia.
  assert (Habs : Z.abs_N (if neg then - Z.of_N a else Z.of_N a) = a) by (destruct neg; lia).
  assert (Hsign : ((if neg then - Z.of_N a else Z.of_N a) <? 0) = neg).
  { destruct neg.
    - apply Z.ltb_lt. specialize (Hneg eq_refl). unfold a. lia.
    - apply Z.ltb_ge. lia. }
  rewrite Habs, Hsign.
  assert (Hh : (a / 3600000000 = hh)%N).
  { rewrite E1. symmetry.
    apply (N.div_unique _ _ hh (mm * 60000000)); [exact Hlt | reflexivity]. }
  assert (Hm : (a mod 3600000000 / 60000000 = mm)%N).
  { rewrite E1, <- (N.mod_unique _ _ hh (mm * 60000000)) by (assumption || reflexivity).
    apply N.div_mul. discriminate. }
  assert (Hs : (a mod 60000000 = 0)%N) by (unfold a; apply N.Div0.mod_mul).
  rewrite Hh, Hm, Hs. cbn [N.eqb]. now rewrite append_empty_r.
Qed.

(** X22.  [validate_high_low] never alters its argument: when it
    returns, it returns the very value it was given, and that value is
    an object with attributes. *)
Theorem hook_returns_its_argument v w :
  ohcl_schema.validate_high_low v = ret w ->
  w = v /\ (exists cls attrs, v = PyObj cls attrs).
Proof.
  intros E. pose proof (ohcl_facts.validate_high_low_returns_self _ _ E) as ->.
  destruct v as [| | | | | | | | | cls attrs]; try discriminate.
  split; [reflexivity | eauto].
Qed.

End Extras.

(** *** The further properties with hypotheses, applied *)

Lemma parse_list_first_six_witness :
  (6 <= List.length seven_elements)%nat /\
  ohcl_schema.parse_list (PyList seven_elements)
  = ohcl_schema.parse_list (PyList (firstn 6 seven_elements)).
Proof.
  assert (Hlen : (6 <= List.length seven_elements)%nat) by (simpl; lia).
  split; [exact Hlen |].
  exact (proj1 (proj2 (parse_list_first_six seven_elements Hlen))).
Defined.

Lemma validate_high_low_order_witness :
  @ohcl_schema.validate_high_low sample.runtime
    (candle_object (decimal.Finite false "100" 0) (decimal.Finite false "90" 0)
       (decimal.Finite false "50" 0) (decimal.Finite false "95" 0))
  = raise (ValueError "High must be >= max(open, close)").
Proof.
  apply (proj1 (proj2 (@validate_high_low_order sample.runtime "SimpleNamespace"
                         [("open", PyDecimal (decimal.Finite false "100" 0));
                          ("high", PyDecimal (decimal.Finite false "90" 0));
                          ("low", PyDecimal (decimal.Finite false "50" 0));
                          ("close", PyDecimal (decimal.Finite false "95" 0))]
                         (decimal.Finite false "100" 0) (decimal.Finite false "90" 0)
                         (decimal.Finite false "50" 0) (decimal.Finite false "95" 0)
                         eq_refl eq_refl eq_refl eq_refl
                         eq_refl eq_refl eq_refl eq_refl))).
  left. reflexivity.
Defined.

Lemma decimal_text_reads_back_witness :
  decimal_validator (PyStr "0.0000001") = Valid (decimal.Finite false "1" (-7)) /\
  decimal_validator (PyStr "1E-7") = Valid (decimal.Finite false "1" (-7)).
Proof.
  split; [reflexivity |].
  apply (decimal_text_reads_back (PyStr "0.0000001") (decimal.Finite false "1" (-7)) eq_refl).
  intros x Hx. discriminate Hx.
Defined.

Lemma decimal_padding_ignored_witness :
  decimal.of_string "  1.50 " = decimal.of_string "1.50".
Proof.
  exact (proj1 (decimal_padding_ignored "  " " " "1.50" eq_refl eq_refl)).
Defined.

Lemma trade_entry_errors_by_field_witness :
  In "price" trade_fields /\
  errors_at "price"
    (errors_of (@trade_schema.TradeEntry_validate sample.runtime (PyDict trade_without_price)))
  = [mkError missing [LocKey "price"] (PyDict trade_without_price)].
Proof.
  assert (Hin : In "price" trade_fields) by (simpl; tauto).
  split; [exact Hin |].
  exact (proj1 (@trade_entry_errors_by_field sample.runtime trade_without_price "price" Hin)).
Defined.

Lemma trade_entry_invariants_witness :
  decimal.is_finite (trade_schema.price (sample_trade_entry "2024-01-01")) = true /\
  (trade_schema.type (sample_trade_entry "2024-01-01") = "buy" \/
   trade_schema.type (sample_trade_entry "2024-01-01") = "sell").
Proof.
  destruct (@trade_entry_invariants sample.runtime
              (sample_trade (PyStr "buy") (PyStr "2024-01-01"))
              (sample_trade_entry "2024-01-01") eq_refl) as (Hp & _ & _ & Hty).
  split; [exact Hp | exact Hty].
Defined.

Lemma trade_entry_record_round_trip_witness :
  @trade_schema.TradeEntry_validate sample.runtime
    (TradeEntry_record (sample_trade_entry "2024-01-01"))
  = Valid (sample_trade_entry "2024-01-01").
Proof.
  exact (@trade_entry_record_round_trip sample.runtime
           (sample_trade (PyStr "buy") (PyStr "2024-01-01"))
           (sample_trade_entry "2024-01-01") eq_refl).
Defined.

Lemma trade_entry_text_round_trip_witness :
  @trade_schema.TradeEntry_validate sample.runtime
    (TradeEntry_text_record (sample_trade_entry "2024-01-01"))
  = Valid (sample_trade_entry "2024-01-01").
Proof.
  apply (@trade_entry_text_round_trip sample.runtime
           (sample_trade (PyStr "buy") (PyStr "2024-01-01"))
           (sample_trade_entry "2024-01-01") eq_refl).
  intros k x Hk. unfold sample_trade in Hk. cbn [lookup] in Hk.
  repeat match type of Hk with
         | (if ?b then _ else _) = _ => destruct b; [discriminate Hk |]
         end.
  discriminate Hk.
Defined.

Lemma nubitex_trades_error_positions_witness :
  errors_at "trades"
    (errors_of (@trade_schema.NubitexTrades_validate sample.runtime (PyDict mixed_batch)))
  = [mkError (literal_error ["buy"; "sell"])
       [LocKey "trades"; LocIndex 1; LocKey "type"] (PyStr "hold")].
Proof.
  exact (proj1 (@nubitex_trades_error_positions sample.runtime mixed_batch _ eq_refl)).
Defined.

Lemma test_entry_text_round_trip_witness :
  @test_ohcl.OHLCEntry_validate sample.runtime
    (OHLCEntry_text_record
       (test_ohcl.mkOHLCEntry 1699000000000
          (decimal.Finite false "500005" (-1)) (decimal.Finite false "510000" (-1))
          (decimal.Finite false "495000" (-1)) (decimal.Finite false "505000" (-1))
          (decimal.Finite false "1005" (-1))))
  = Valid (test_ohcl.mkOHLCEntry 1699000000000
             (decimal.Finite false "500005" (-1)) (decimal.Finite false "510000" (-1))
             (decimal.Finite false "495000" (-1)) (decimal.Finite false "505000" (-1))
             (decimal.Finite false "1005" (-1))).
Proof.
  apply (@test_entry_text_round_trip sample.runtime (PyList seven_elements) _ _ eq_refl);
    [| reflexivity].
  intros k x Hk. cbn [lookup] in Hk.
  repeat match type of Hk with
         | (if ?b then _ else _) = _ => destruct b; [discriminate Hk |]
         end.
  discriminate Hk.
Defined.

Lemma timestamp_offset_text_witness :
  @trade_schema.validate_timestamp sample.runtime (PyDatetime tehran_time)
  = ret "2018-11-18T15:26:07.798845+03:30".
Proof.
  apply (@timestamp_offset_text sample.runtime false 3 30 tehran_time).
  - reflexivity.
  - discriminate.
  - reflexivity.
Defined.

Lemma hook_returns_its_argument_witness :
  @ohcl_schema.validate_high_low sample.runtime
    (candle_object (decimal.Finite false "100" 0) (decimal.Finite false "110" 0)
       (decimal.Finite false "90" 0) (decimal.Finite false "105" 0))
  = ret (candle_object (decimal.Finite false "100" 0) (decimal.Finite false "110" 0)
           (decimal.Finite false "90" 0) (decimal.Finite false "105" 0))
  /\ exists cls attrs,
       candle_object (decimal.Finite false "100" 0) (decimal.Finite false "110" 0)
         (decimal.Finite false "90" 0) (decimal.Finite false "105" 0)
       = PyObj cls attrs.
Proof.
  split; [reflexivity |].
  exact (proj2 (@hook_returns_its_argument sample.runtime
                  (candle_object (decimal.Finite false "100" 0)
                     (decimal.Finite false "110" 0) (decimal.Finite false "90" 0)
                     (decimal.Finite false "105" 0))
                  (candle_object (decimal.Finite false "100" 0)
                     (decimal.Finite false "110" 0) (decimal.Finite false "90" 0)
                     (decimal.Finite false "105" 0))
                  eq_refl)).
Defined.
